(** * gravestench/mathlib, euler.go: Euler angles and their decomposition
      from a rotation matrix.

    The development follows the Go source closely.

    - [float64] values are IEEE 754 binary64 numbers, taken from the
      Standard Library's [SpecFloat] (sign, mantissa, exponent; signed
      zeros, infinities and NaN).  Go's [int] is an integer in [Z].
    - [*Euler] is a location in a store of [Euler] records; methods are
      state transformers that may panic (nil receiver, nil callback).
    - [math.Asin] and [math.Atan2] belong to Go's library, and the
      quaternion and matrix types to other files of the package: they are
      section variables. *)

From Stdlib Require Import ZArith Lia Bool List.
From Stdlib Require Import SpecFloat.
From stdpp Require Import gmap.
Import ListNotations.

Local Open Scope Z_scope.

(** ** binary64 floating point *)

Module F64.

Definition prec : Z := 53.
Definition emax : Z := 1024.

Definition float64 : Type := spec_float.

(** Go's [int] on 64-bit targets. *)
Definition int_min : Z := - 2 ^ 63.
Definition int_max : Z := 2 ^ 63 - 1.

(** The conversion [float64(n)] of an [int]: round to nearest, ties to even. *)
Definition of_int (n : Z) : float64 := binary_normalize prec emax n 0 false.

(** The conversion [int(f)]: the fraction is discarded (truncation towards
    zero).  A value that does not fit, an infinity or a NaN gives an
    implementation-specific result in Go; the amd64 one is modelled. *)
Definition to_int (f : float64) : Z :=
  match f with
  | S754_zero _ => 0
  | S754_finite s m e =>
      let t := Z.shiftl (Zpos m) e in
      let v := if s then - t else t in
      if (int_min <=? v) && (v <=? int_max) then v else int_min
  | S754_infinity _ | S754_nan => int_min
  end.

(** Literals of the source. *)
Definition zero : float64 := S754_zero false.
Definition one : float64 := Eval vm_compute in of_int 1.
Definition minus_one : float64 := Eval vm_compute in of_int (-1).
(** [0.99999] is not a binary64 number; the compiler takes the nearest one,
    [0x1.fffeb074a771dp-1]. *)
Definition lit_0_99999 : float64 := S754_finite false 9007109182748445 (-53).

Definition neg (f : float64) : float64 := SFopp f.
Definition lt (a b : float64) : bool := SFltb a b.
Definition le (a b : float64) : bool := SFleb a b.
Definition ge (a b : float64) : bool := SFleb b a.
Definition is_nan (f : float64) : bool :=
  match f with S754_nan => true | _ => false end.

End F64.

Import F64.

(** ** The package's helper [Clamp] *)

(** Modelled from the spec: [Clamp] is defined in another file of the
    package.  Section 4.4: "returns v if lo <= v <= hi, else the nearest
    bound", a NaN being "not specially handled": it fails both comparisons
    and comes back as it is. *)
Definition Clamp (v lo hi : float64) : float64 :=
  if lt v lo then lo else if lt hi v then hi else v.

(** ** euler.go *)

Abbreviation int := BinNums.Z (only parsing).

(** The Euler orders (an [iota] block). *)
Definition EulerOrderXYZ : int := 0.
Definition EulerOrderYXZ : int := 1.
Definition EulerOrderZXY : int := 2.
Definition EulerOrderZYX : int := 3.
Definition EulerOrderYZX : int := 4.
Definition EulerOrderXZY : int := 5.
Definition numEulerOrders : int := 6.
Definition EulerOrderDefault : int := EulerOrderXYZ.

(** Addresses of [Euler] values: a [*Euler] is an address, and an address
    that the store does not hold stands for the nil pointer. *)
Abbreviation loc := positive (only parsing).

(** Modelled from the spec: [Matrix4] is declared in another file of the
    package; section 6 gives its storage as a flat array of 16 numbers.
    [index m i] reads [m[i]]; the indices the code reads are constants below
    16. *)
Record Matrix4 := { Values : list float64 }.

Definition index (m : list float64) (i : nat) : float64 := nth i m zero.

(** A value of the type of [OnChangeCallback], a function on a [*Euler].
    [K] names the functions a caller can install besides [eulerNoop]. *)
Inductive func {K : Type} :=
  | nil_func
  | eulerNoop
  | closure (k : K).
Arguments func K : clear implicits.

(** The struct [Euler].  From here on [Z] is its field; the integers are
    [int]. *)
Record Euler {K : Type} := {
  X : float64;
  Y : float64;
  Z : float64;
  Order : int;
  OnChangeCallback : func K
}.
Arguments Euler K : clear implicits.

(** One call of a callback: the function called, its argument and the store
    it was called on. *)
Definition call_record (K : Type) : Type := func K * loc * gmap loc (Euler K).

(** The state of a run: the store of [Euler] values, the rest of the program
    state (of some type [W]), and the calls of callbacks made so far, oldest
    first. *)
Record state {K W : Type} := {
  heap : gmap loc (Euler K);
  world : W;
  calls : list (call_record K)
}.
Arguments state K W : clear implicits.

(** A run returns a value and a state, or panics. *)
Inductive result {K W : Type} (A : Type) :=
  | Ok (a : A) (s : state K W)
  | Panic.
Arguments result K W A : clear implicits.
Arguments Ok {K W A} a s.
Arguments Panic {K W A}.

(** ** Data for concrete runs

    A store with one container at address 1, no observer besides
    [eulerNoop]; stand-ins for the two library functions where one is
    needed to run [decompose]. *)

Definition no_closure
  : Empty_set -> loc -> gmap loc (Euler Empty_set) -> unit
    -> option (gmap loc (Euler Empty_set) * unit) :=
  fun k => match k with end.

Definition sample_euler : Euler Empty_set :=
  {| X := one; Y := zero; Z := minus_one; Order := EulerOrderYXZ;
     OnChangeCallback := eulerNoop |}.

Definition sample_state : state Empty_set unit :=
  {| heap := {[ 1%positive := sample_euler ]}; world := tt; calls := [] |}.

Definition sample_default : Euler Empty_set :=
  {| X := zero; Y := zero; Z := zero; Order := 99;
     OnChangeCallback := eulerNoop |}.

Definition sample_state_default : state Empty_set unit :=
  {| heap := {[ 1%positive := sample_default ]}; world := tt; calls := [] |}.

Definition asin_stand_in : float64 -> float64 := fun a => a.
Definition atan2_stand_in : float64 -> float64 -> float64 := fun a _ => a.

(** The identity matrix, and a matrix whose entry [m13 = m[8]] is a NaN. *)
Definition identity_matrix : Matrix4 :=
  {| Values := [one; zero; zero; zero; zero; one; zero; zero;
                zero; zero; one; zero; zero; zero; zero; one] |}.

Definition nan_matrix : Matrix4 :=
  {| Values := [one; zero; zero; zero; one; one; zero; zero;
                S754_nan; zero; one; zero; zero; zero; zero; one] |}.

(** A container like [sample_euler] with another order, alone in its
    store; two containers in one store; and the identity matrix with a
    translation column. *)
Definition sample_ordered (k : int) : Euler Empty_set :=
  {| X := one; Y := zero; Z := minus_one; Order := k;
     OnChangeCallback := eulerNoop |}.

Definition sample_state_ordered (k : int) : state Empty_set unit :=
  {| heap := {[ 1%positive := sample_ordered k ]}; world := tt; calls := [] |}.

Definition sample_state_two : state Empty_set unit :=
  {| heap := <[ 2%positive := sample_default ]> {[ 1%positive := sample_euler ]};
     world := tt; calls := [] |}.

Definition translated_identity : Matrix4 :=
  {| Values := [one; zero; zero; minus_one; zero; one; zero; one;
                zero; zero; one; one; one; one; one; minus_one] |}.


Section Model.

(** [K] names the functions a caller can install as [OnChangeCallback]
    besides [eulerNoop]; [W] is the part of the program state, outside the
    [Euler] values, that these functions can reach. *)
Context {K W : Type}.

Definition M (A : Type) : Type := state K W -> result K W A.

Definition ret {A} (a : A) : M A := fun s => Ok a s.

Definition bind {A B} (c : M A) (k : A -> M B) : M B :=
  fun s => match c s with
           | Ok a s' => k a s'
           | Panic => Panic
           end.

Notation "x <- c ;; k" := (bind c (fun x => k))
  (at level 100, c at next level, right associativity).
Notation "c ;;; k" := (bind c (fun _ => k))
  (at level 100, right associativity).

(** What the functions named by [K] do when called on an address: the store
    and the outer state they leave, or [None] when they panic. *)
Variable call_closure : K -> loc -> gmap loc (Euler K) -> W -> option (gmap loc (Euler K) * W).

(** [eulerNoop] does nothing; the other functions do what [call_closure]
    says. *)
Definition run_func (f : func K) (e : loc) (h : gmap loc (Euler K)) (w : W)
  : option (gmap loc (Euler K) * W) :=
  match f with
  | nil_func => None
  | eulerNoop => Some (h, w)
  | closure k => call_closure k e h w
  end.

(** The call [f(e)]: calling a nil function panics. *)
Definition call (f : func K) (e : loc) : M unit := fun s =>
  match run_func f e (heap s) (world s) with
  | Some (h', w') =>
      Ok tt {| heap := h'; world := w'; calls := calls s ++ [(f, e, heap s)] |}
  | None => Panic
  end.

(** Reading [*e]: a nil pointer panics. *)
Definition load (e : loc) : M (Euler K) := fun s =>
  match heap s !! e with
  | Some v => Ok v s
  | None => Panic
  end.

(** [e.X, e.Y, e.Z, e.Order = x, y, z, order] *)
Definition assign (e : loc) (x y z : float64) (order : int) : M unit := fun s =>
  match heap s !! e with
  | Some v =>
      Ok tt {| heap := <[e := {| X := x; Y := y; Z := z; Order := order;
                                 OnChangeCallback := OnChangeCallback v |}]> (heap s);
               world := world s; calls := calls s |}
  | None => Panic
  end.

(** [NewEuler]: a new [Euler] at an address not in use. *)
Definition NewEuler (x y z : float64) (order : int) : M loc := fun s =>
  let e := fresh (dom (heap s)) in
  Ok e {| heap := <[e := {| X := x; Y := y; Z := z; Order := order;
                            OnChangeCallback := eulerNoop |}]> (heap s);
          world := world s; calls := calls s |}.

Definition XY (e : loc) : M (float64 * float64) :=
  v <- load e;; ret (X v, Y v).

Definition XYZ (e : loc) : M (float64 * float64 * float64) :=
  v <- load e;; ret (X v, Y v, Z v).

(** The method [Set] ([Set] alone is a reserved word). *)
Definition Set_ (e : loc) (x y z : float64) (order : int) : M loc :=
  let order := to_int (Clamp (of_int order) (of_int 0) (of_int (numEulerOrders - 1))) in
  assign e x y z order;;;
  v <- load e;;
  call (OnChangeCallback v) e;;;
  ret e.

Definition SetX (e : loc) (v : float64) : M loc :=
  c <- load e;; Set_ e v (Y c) (Z c) (Order c).

Definition SetY (e : loc) (v : float64) : M loc :=
  c <- load e;; Set_ e (X c) v (Z c) (Order c).

Definition SetZ (e : loc) (v : float64) : M loc :=
  c <- load e;; Set_ e (X c) (Y c) v (Order c).

Definition SetOrder (e : loc) (v : int) : M loc :=
  c <- load e;; Set_ e (X c) (Y c) (Z c) v.

Definition Copy (e other : loc) : M loc :=
  o <- load other;; Set_ e (X o) (Y o) (Z o) (Order o).

(** [math.Asin] and [math.Atan2], of Go's library. *)
Variable math_Asin : float64 -> float64.
Variable math_Atan2 : float64 -> float64 -> float64.
Definition math_Abs (f : float64) : float64 := SFabs f.

(** Lines 100 to 169 of [SetFromRotationMatrix]: the angles [x, y, z] read
    off the matrix storage [m], [order] being the value that the [switch]
    inspects. *)
Definition decompose (m : list float64) (order : int)
  : float64 * float64 * float64 :=
  let m11 := index m 0 in let m12 := index m 4 in let m13 := index m 8 in
  let m21 := index m 1 in let m22 := index m 5 in let m23 := index m 9 in
  let m31 := index m 2 in let m32 := index m 6 in let m33 := index m 10 in
  let x := zero in let y := zero in let z := zero in
  let epsilon := lit_0_99999 in
  if order =? EulerOrderYXZ then
    let x := math_Asin (neg (Clamp m23 minus_one one)) in
    if lt (math_Abs m23) epsilon
    then (x, math_Atan2 m13 m33, math_Atan2 m21 m22)
    else (x, math_Atan2 (neg m31) m11, z)
  else if order =? EulerOrderZXY then
    let x := math_Asin (Clamp m32 minus_one one) in
    if lt (math_Abs m32) epsilon
    then (x, math_Atan2 (neg m31) m33, math_Atan2 (neg m12) m22)
    else (x, y, math_Atan2 m21 m11)
  else if order =? EulerOrderZYX then
    let y := math_Asin (neg (Clamp m31 minus_one one)) in
    if lt (math_Abs m31) epsilon
    then (math_Atan2 m32 m33, y, math_Atan2 m21 m11)
    else (x, y, math_Atan2 (neg m12) m22)
  else if order =? EulerOrderYZX then
    let z := math_Asin (Clamp m21 minus_one one) in
    if lt (math_Abs m21) epsilon
    then (math_Atan2 (neg m23) m22, math_Atan2 (neg m31) m11, z)
    else (x, math_Atan2 m13 m33, z)
  else if order =? EulerOrderXZY then
    let z := math_Asin (neg (Clamp m12 minus_one one)) in
    if lt (math_Abs m12) epsilon
    then (math_Atan2 m32 m22, math_Atan2 m13 m11, z)
    else (math_Atan2 (neg m23) m33, y, z)
  else (* case EulerOrderXYZ: fallthrough; default: *)
    let y := math_Asin (Clamp m13 minus_one one) in
    if lt (math_Abs m13) epsilon
    then (math_Atan2 (neg m23) m33, y, math_Atan2 (neg m12) m11)
    else (math_Atan2 m32 m22, y, z).

(** Reading through a [*Matrix4]: a nil pointer panics. *)
Definition deref (m4 : option Matrix4) : M Matrix4 := fun s =>
  match m4 with
  | Some m => Ok m s
  | None => Panic
  end.

Definition SetFromRotationMatrix (e : loc) (m4 : option Matrix4) (order : int) : M loc :=
  m <- deref m4;;
  c <- load e;;
  let '(x, y, z) := decompose (Values m) (Order c) in
  Set_ e x y z order.

(** Modelled from the spec: the quaternion type, [NewMatrix4] and
    [FromQuaternion] are in other files of the package; section 6 has them
    build the matrix of a quaternion, without a word on [Euler] values.
    [NewMatrix4_nil] is the matrix [NewMatrix4(nil)] and [FromQuaternion t q]
    the content of [t] after [t.FromQuaternion(q)]. *)
Variable Quaternion : Type.
Variable NewMatrix4_nil : Matrix4.
Variable FromQuaternion : Matrix4 -> Quaternion -> Matrix4.

Definition SetFromQuaternion (e : loc) (q : Quaternion) (order : int) : M loc :=
  let tmpMat4 := NewMatrix4_nil in
  let tmpMat4 := FromQuaternion tmpMat4 q in
  SetFromRotationMatrix e (Some tmpMat4) order.

(** *** Vocabulary of the statements *)

(** The value at [e] once [Set] has assigned the four fields of [c]. *)
Definition set_fields (c : Euler K) (x y z : float64) (order : int) : Euler K :=
  {| X := x; Y := y; Z := z; Order := order;
     OnChangeCallback := OnChangeCallback c |}.

(** The integer clamp of an order to the six valid values. *)
Definition clamp_order_int (o : int) : int := Z.max 0 (Z.min (numEulerOrders - 1) o).

(** [v] is stored at [e], then [f(e)] is called, once, and [e] returned. *)
Definition store_and_notify (f : func K) (e : loc) (v : Euler K) (s : state K W)
  : result K W loc :=
  match run_func f e (<[e := v]> (heap s)) (world s) with
  | Some (h', w') =>
      Ok e {| heap := h'; world := w';
              calls := calls s ++ [(f, e, <[e := v]> (heap s))] |}
  | None => Panic
  end.

(** The run [r] from [s] notified the observer of [e] exactly once: whenever
    the observer returns (leaving the store [h'] and the outer state [w']),
    [r] returned [e], and the calls made are those of [s] and one more, of
    the observer on [e], at a time when the store held [v] at [e]. *)
Definition notifies_once (r : result K W loc) (s : state K W) (e : loc) (v : Euler K) : Prop :=
  forall h' w',
    run_func (OnChangeCallback v) e (<[e := v]> (heap s)) (world s) = Some (h', w') ->
    r = Ok e {| heap := h'; world := w';
                calls := calls s ++ [(OnChangeCallback v, e, <[e := v]> (heap s))] |}.

(** The mutating methods, as data, and a run of several of them on [e]. *)
Inductive mutation :=
  | MSet (x y z : float64) (order : int)
  | MSetX (v : float64)
  | MSetY (v : float64)
  | MSetZ (v : float64)
  | MSetOrder (v : int)
  | MCopy (other : loc)
  | MSetFromQuaternion (q : Quaternion) (order : int)
  | MSetFromRotationMatrix (m4 : Matrix4) (order : int).

Definition mutate (e : loc) (op : mutation) : M loc :=
  match op with
  | MSet x y z order => Set_ e x y z order
  | MSetX v => SetX e v
  | MSetY v => SetY e v
  | MSetZ v => SetZ e v
  | MSetOrder v => SetOrder e v
  | MCopy other => Copy e other
  | MSetFromQuaternion q order => SetFromQuaternion e q order
  | MSetFromRotationMatrix m4 order => SetFromRotationMatrix e (Some m4) order
  end.

Fixpoint mutate_all (e : loc) (ops : list mutation) : M unit :=
  match ops with
  | [] => ret tt
  | op :: ops' => mutate e op;;; mutate_all e ops'
  end.

(** The pointer arguments of [op] are not nil in the store [h]. *)
Definition mutation_ok (h : gmap loc (Euler K)) (op : mutation) : Prop :=
  match op with
  | MCopy other => is_Some (h !! other)
  | _ => True
  end.

(** *** The table of section 4.3 of the specification

    The six rows of the table, as the specification words them, to be
    compared with [decompose]: the entry under [asin], the argument [asin]
    gets, and the angles of the non-singular and of the singular column. *)
Inductive row := RowXYZ | RowYXZ | RowZXY | RowZYX | RowYZX | RowXZY.

(** "Unrecognized order values fall back to the XYZ branch". *)
Definition row_of (order : int) : row :=
  match order with
  | 1 => RowYXZ | 2 => RowZXY | 3 => RowZYX | 4 => RowYZX | 5 => RowXZY
  | _ => RowXYZ
  end.

Definition table_source (r : row) (m : list float64) : float64 :=
  match r with
  | RowXYZ => index m 8 (* m13 *)
  | RowYXZ => index m 9 (* m23 *)
  | RowZXY => index m 6 (* m32 *)
  | RowZYX => index m 2 (* m31 *)
  | RowYZX => index m 1 (* m21 *)
  | RowXZY => index m 4 (* m12 *)
  end.

Definition table_asin_arg (r : row) (m : list float64) : float64 :=
  let c := Clamp (table_source r m) minus_one one in
  match r with
  | RowXYZ | RowZXY | RowYZX => c
  | RowYXZ | RowZYX | RowXZY => neg c
  end.

Definition table_angles (singular : bool) (r : row) (m : list float64)
  : float64 * float64 * float64 :=
  let m11 := index m 0 in let m12 := index m 4 in let m13 := index m 8 in
  let m21 := index m 1 in let m22 := index m 5 in let m23 := index m 9 in
  let m31 := index m 2 in let m32 := index m 6 in let m33 := index m 10 in
  let a := math_Asin (table_asin_arg r m) in
  match r, singular with
  | RowXYZ, false => (math_Atan2 (neg m23) m33, a, math_Atan2 (neg m12) m11)
  | RowXYZ, true => (math_Atan2 m32 m22, a, zero)
  | RowYXZ, false => (a, math_Atan2 m13 m33, math_Atan2 m21 m22)
  | RowYXZ, true => (a, math_Atan2 (neg m31) m11, zero)
  | RowZXY, false => (a, math_Atan2 (neg m31) m33, math_Atan2 (neg m12) m22)
  | RowZXY, true => (a, zero, math_Atan2 m21 m11)
  | RowZYX, false => (math_Atan2 m32 m33, a, math_Atan2 m21 m11)
  | RowZYX, true => (zero, a, math_Atan2 (neg m12) m22)
  | RowYZX, false => (math_Atan2 (neg m23) m22, math_Atan2 (neg m31) m11, a)
  | RowYZX, true => (zero, math_Atan2 m13 m33, a)
  | RowXZY, false => (math_Atan2 m32 m22, math_Atan2 m13 m11, a)
  | RowXZY, true => (math_Atan2 (neg m23) m33, zero, a)
  end.

(** *** Vocabulary of the further properties *)

(** The state after [v] is stored at [e] and [eulerNoop] called on [e]. *)
Definition after_noop (e : loc) (v : Euler K) (s : state K W) : state K W :=
  {| heap := <[e := v]> (heap s); world := world s;
     calls := calls s ++ [(eulerNoop, e, <[e := v]> (heap s))] |}.

(** The indices of the storage that lines 102 to 107 read: the upper left
    3x3 block. *)
Definition rotation_indices : list nat := [0; 1; 2; 4; 5; 6; 8; 9; 10]%nat.

Definition same_rotation (m m' : list float64) : Prop :=
  Forall (fun i => index m i = index m' i) rotation_indices.

(** ** Facts on the rounding of [SpecFloat] *)

Section Rounding.

Lemma digits2_size (p : positive) : digits2_pos p = Pos.size p.
Proof. induction p as [p IH|p IH|]; simpl; congruence. Qed.

Lemma digits2_lower (p : positive) : 2 ^ (Zpos (digits2_pos p) - 1) <= Zpos p.
Proof.
  rewrite digits2_size.
  pose proof (Pos.size_le p) as H.
  apply Pos2Z.pos_le_pos in H. rewrite Pos2Z.inj_pow in H.
  change (Zpos p~0) with (2 * Zpos p) in H.
  replace (Zpos (Pos.size p)) with (Z.succ (Zpos (Pos.size p) - 1)) in H by lia.
  rewrite Z.pow_succ_r in H by lia. lia.
Qed.

Lemma shr_1_m (r : shr_record) :
  0 <= shr_m r -> shr_m (shr_1 r) = shr_m r / 2.
Proof.
  intros Hm. rewrite <- Z.div2_div.
  destruct r as [m b s]; simpl in *.
  destruct m as [|[p|p|]|p]; try reflexivity; lia.
Qed.

Lemma div_pow2_nonneg (a k : int) : 0 <= a -> 0 <= a / 2 ^ k.
Proof.
  intros Ha. destruct (Z_lt_le_dec k 0) as [Hk|Hk].
  - rewrite Z.pow_neg_r by assumption. rewrite Z.div_0_r. lia.
  - apply Z.div_pos; [assumption|]. apply Z.pow_pos_nonneg; lia.
Qed.

Lemma iter_shr_1_m (n : positive) : forall r : shr_record,
  0 <= shr_m r -> shr_m (SpecFloat.iter_pos shr_1 n r) = shr_m r / 2 ^ Zpos n.
Proof.
  assert (Hp : forall k : positive, 0 < 2 ^ Zpos k)
    by (intros k; apply Z.pow_pos_nonneg; lia).
  induction n as [n IH|n IH|]; intros r Hr; simpl.
  - assert (H1 : 0 <= shr_m (shr_1 r))
      by (rewrite shr_1_m by assumption; apply Z.div_pos; lia).
    assert (H2 : 0 <= shr_m (SpecFloat.iter_pos shr_1 n (shr_1 r)))
      by (rewrite IH by assumption; apply div_pow2_nonneg; assumption).
    rewrite IH, IH, shr_1_m by assumption.
    change (Zpos n~1) with (2 * Zpos n + 1).
    replace (2 * Zpos n + 1) with (1 + Zpos n + Zpos n) by lia.
    rewrite !Z.pow_add_r by lia. specialize (Hp n).
    rewrite !Z.div_div by nia.
    f_equal. change (2 ^ 1) with 2. ring.
  - assert (H2 : 0 <= shr_m (SpecFloat.iter_pos shr_1 n r))
      by (rewrite IH by assumption; apply div_pow2_nonneg; assumption).
    rewrite IH, IH by assumption.
    change (Zpos n~0) with (2 * Zpos n).
    replace (2 * Zpos n) with (Zpos n + Zpos n) by lia.
    rewrite !Z.pow_add_r by lia. specialize (Hp n).
    rewrite !Z.div_div by nia.
    reflexivity.
  - rewrite shr_1_m by lia. reflexivity.
Qed.

Lemma shr_record_of_loc_m (m : int) (l : location) :
  shr_m (shr_record_of_loc m l) = m.
Proof. destruct l as [|[]]; reflexivity. Qed.

(** One alignment step on a positive mantissa whose exponent is far from the
    subnormal range: the mantissa stays positive and the exponent does not
    decrease below what the number of digits asks for. *)
Lemma shr_fexp_pos (p : positive) (e : int) (l : location) :
  -1021 <= e ->
  0 < shr_m (fst (shr_fexp prec emax (Zpos p) e l)) /\
  e <= snd (shr_fexp prec emax (Zpos p) e l) /\
  Zpos (digits2_pos p) + e - 53 <= snd (shr_fexp prec emax (Zpos p) e l).
Proof.
  intros He. unfold shr_fexp, fexp, emin, prec, emax. cbn [Zdigits2].
  set (d := Zpos (digits2_pos p)).
  assert (Hd : 1 <= d) by (unfold d; lia).
  replace (Z.max (d + e - 53) (3 - 1024 - 53) - e) with (d - 53) by lia.
  unfold shr. destruct (d - 53) as [|k|k] eqn:Hk; cbn [fst snd];
    rewrite ?shr_record_of_loc_m; try lia.
  rewrite iter_shr_1_m by (rewrite shr_record_of_loc_m; lia).
  rewrite shr_record_of_loc_m. split; [|lia].
  apply Z.div_str_pos. split; [apply Z.pow_pos_nonneg; lia|].
  transitivity (2 ^ (d - 1)); [|apply digits2_lower].
  apply Z.pow_le_mono_r; lia.
Qed.

Lemma round_nearest_even_pos (m : int) (l : location) :
  0 < m -> 0 < round_nearest_even m l.
Proof.
  intros Hm. destruct l as [|[]]; simpl; try lia.
  destruct (Z.even m); lia.
Qed.

(** Rounding a positive mantissa gives an infinity or a finite number of the
    same sign, never a zero or a NaN. *)
Lemma binary_round_aux_pos (s : bool) (p : positive) (e : int) (l : location) :
  -1021 <= e ->
  binary_round_aux prec emax s (Zpos p) e l = S754_infinity s \/
  exists m e', binary_round_aux prec emax s (Zpos p) e l = S754_finite s m e' /\
               e <= e' /\ Zpos (digits2_pos p) + e - 53 <= e'.
Proof.
  intros He. unfold binary_round_aux.
  destruct (shr_fexp_pos p e l He) as (Hm1 & He1 & Hd1).
  destruct (shr_fexp prec emax (Zpos p) e l) as [mrs' e1]. cbn [fst snd] in *.
  pose proof (round_nearest_even_pos _ (loc_of_shr_record mrs') Hm1) as Hm2.
  destruct (round_nearest_even (shr_m mrs') (loc_of_shr_record mrs'))
    as [|q|q]; try lia.
  destruct (shr_fexp_pos q e1 loc_Exact ltac:(lia)) as (Hm3 & He2 & _).
  destruct (shr_fexp prec emax (Zpos q) e1 loc_Exact) as [mrs'' e2].
  cbn [fst snd] in *.
  destruct (shr_m mrs'') as [|m|m]; try lia.
  destruct (e2 <=? emax - prec); [right|left; reflexivity].
  exists m, e2. repeat split; lia.
Qed.

Lemma binary_round_int (s : bool) (p : positive) :
  binary_round prec emax s p 0 = S754_infinity s \/
  exists m e, binary_round prec emax s p 0 = S754_finite s m e /\
              Zpos (digits2_pos p) - 53 <= e.
Proof.
  unfold binary_round, shl_align, fexp, emin, prec, emax.
  set (d := Zpos (digits2_pos p)).
  assert (Hd : 1 <= d) by (unfold d; lia).
  replace (Z.max (d + 0 - 53) (3 - 1024 - 53) - 0) with (d - 53) by lia.
  replace (Z.max (d + 0 - 53) (3 - 1024 - 53)) with (d - 53) by lia.
  destruct (d - 53) as [|k|k] eqn:Hk.
  - destruct (binary_round_aux_pos s p 0 loc_Exact ltac:(lia))
      as [H|(m & e & H & He & Hde)]; [left; exact H|right].
    exists m, e. split; [exact H|fold d in Hde; lia].
  - destruct (binary_round_aux_pos s p 0 loc_Exact ltac:(lia))
      as [H|(m & e & H & He & Hde)]; [left; exact H|right].
    exists m, e. split; [exact H|fold d in Hde; lia].
  - destruct (binary_round_aux_pos s (Pos.iter xO p k) (Zneg k) loc_Exact ltac:(lia))
      as [H|(m & e & H & He & Hde)]; [left; exact H|right].
    exists m, e. split; [exact H|lia].
Qed.

(** [float64(n)] of a positive [n] is positive, of a negative [n] negative. *)
Lemma of_int_pos (p : positive) :
  of_int (Zpos p) = S754_infinity false \/
  exists m e, of_int (Zpos p) = S754_finite false m e /\
              Zpos (digits2_pos p) - 53 <= e.
Proof. apply binary_round_int. Qed.

Lemma of_int_neg (p : positive) :
  of_int (Zneg p) = S754_infinity true \/
  exists m e, of_int (Zneg p) = S754_finite true m e.
Proof.
  destruct (binary_round_int true p) as [H|(m & e & H & _)]; [left|right; eauto].
  exact H.
Qed.

End Rounding.

(** ** Comparisons of binary64 numbers *)

Section Comparisons.

Lemma SFcompare_antisym (a b : float64) :
  SFcompare b a = option_map CompOpp (SFcompare a b).
Proof.
  destruct a as [sa|sa| |sa ma ea], b as [sb|sb| |sb mb eb]; simpl;
    try reflexivity; try (destruct sa; reflexivity);
    try (destruct sb; reflexivity);
    try (destruct sa, sb; reflexivity).
  destruct sa, sb; try reflexivity;
    rewrite (Z.compare_antisym ea eb);
    destruct (ea ?= eb); simpl; try reflexivity;
    rewrite (Pos.compare_cont_antisym ma mb Eq); simpl;
    rewrite ?CompOpp_involutive; reflexivity.
Qed.

Lemma SFcompare_nan (a b : float64) :
  is_nan a = false -> is_nan b = false -> SFcompare a b <> None.
Proof. destruct a, b; simpl; congruence. Qed.

(** Without a NaN the order is total: [a < b] fails exactly when [b <= a]. *)
Lemma lt_false_ge (a b : float64) :
  is_nan a = false -> is_nan b = false -> lt a b = negb (ge a b).
Proof.
  intros Ha Hb. unfold lt, ge, SFltb, SFleb.
  pose proof (SFcompare_nan a b Ha Hb) as Hc.
  rewrite (SFcompare_antisym a b).
  destruct (SFcompare a b) as [[]|]; simpl; congruence.
Qed.

Lemma is_nan_abs (a : float64) : is_nan (SFabs a) = is_nan a.
Proof. destruct a; reflexivity. Qed.

End Comparisons.

(** ** The clamp of an order through [float64] *)

Section OrderClamp.

Lemma clamp_large (p : positive) :
  4 <= Zpos (digits2_pos p) ->
  Clamp (of_int (Zpos p)) (of_int 0) (of_int (numEulerOrders - 1))
  = of_int (numEulerOrders - 1).
Proof.
  intros Hd.
  destruct (of_int_pos p) as [H|(m & e & H & He)]; rewrite H; [reflexivity|].
  change (of_int (numEulerOrders - 1))
    with (S754_finite false 5629499534213120 (-50)).
  change (of_int 0) with (S754_zero false).
  unfold Clamp, lt, SFltb. cbn [SFcompare].
  replace (-50 ?= e) with Lt by (symmetry; apply Z.compare_lt_iff; lia).
  reflexivity.
Qed.

Lemma clamp_negative (p : positive) :
  Clamp (of_int (Zneg p)) (of_int 0) (of_int (numEulerOrders - 1)) = of_int 0.
Proof.
  destruct (of_int_neg p) as [H|(m & e & H)]; rewrite H; reflexivity.
Qed.

(** [int(Clamp(float64(order), 0, numEulerOrders-1))] is the integer clamp
    of [order] to [0..5], whatever the integer [order]. *)
Lemma clamp_order (o : int) :
  to_int (Clamp (of_int o) (of_int 0) (of_int (numEulerOrders - 1)))
  = Z.max 0 (Z.min 5 o).
Proof.
  destruct o as [|p|p].
  - reflexivity.
  - destruct p as [[[q|q|]|[q|q|]|]|[[q|q|]|[q|q|]|]|];
      first [ rewrite clamp_large by (cbn [digits2_pos]; lia);
              rewrite Z.min_l by lia; reflexivity
            | vm_compute; reflexivity ].
  - rewrite clamp_negative. reflexivity.
Qed.

Example clamp_order_99 :
  to_int (Clamp (of_int 99) (of_int 0) (of_int (numEulerOrders - 1))) = 5.
Proof. reflexivity. Qed.

Example clamp_order_int_max :
  to_int (Clamp (of_int int_max) (of_int 0) (of_int (numEulerOrders - 1))) = 5.
Proof. vm_compute. reflexivity. Qed.

Example clamp_order_int_min :
  to_int (Clamp (of_int int_min) (of_int 0) (of_int (numEulerOrders - 1))) = 0.
Proof. vm_compute. reflexivity. Qed.

End OrderClamp.

(** ** The canonical setter *)

Section Setter.

Implicit Types (s : state K W) (e other : loc) (c d : Euler K) (o : int).

Lemma clamp_order_int_range o :
  0 <= clamp_order_int o <= 5 /\
  (o < 0 -> clamp_order_int o = 0) /\
  (5 < o -> clamp_order_int o = 5) /\
  (0 <= o <= 5 -> clamp_order_int o = o).
Proof. unfold clamp_order_int, numEulerOrders. lia. Qed.

(** What a call of [Set] does, whatever the observer: the four fields are
    stored, the order clamped, and the observer installed at [e] is called
    on [e]. *)
Lemma Set_run s e c x y z o :
  heap s !! e = Some c ->
  Set_ e x y z o s
  = store_and_notify (OnChangeCallback c) e
      (set_fields c x y z (clamp_order_int o)) s.
Proof.
  intros Hc. unfold Set_, bind, assign, load, call, ret, store_and_notify.
  rewrite Hc, clamp_order. cbn [heap world calls].
  rewrite lookup_insert_eq. cbn [OnChangeCallback].
  unfold set_fields, clamp_order_int, numEulerOrders.
  destruct (run_func _ _ _ _) as [[h' w']|]; reflexivity.
Qed.

Lemma store_and_notify_once f e c x y z o s :
  OnChangeCallback c = f ->
  notifies_once (store_and_notify f e (set_fields c x y z o) s) s e
    (set_fields c x y z o).
Proof.
  intros <- h' w' Hrun. unfold store_and_notify.
  cbn [set_fields OnChangeCallback] in Hrun |- *. rewrite Hrun. reflexivity.
Qed.

Lemma Set_notifies_once s e c x y z o :
  heap s !! e = Some c ->
  notifies_once (Set_ e x y z o s) s e (set_fields c x y z (clamp_order_int o)).
Proof.
  intros Hc. rewrite (Set_run s e c) by assumption.
  apply store_and_notify_once. reflexivity.
Qed.

Lemma SetX_run s e c v :
  heap s !! e = Some c -> SetX e v s = Set_ e v (Y c) (Z c) (Order c) s.
Proof. intros Hc. unfold SetX, bind, load. rewrite Hc. reflexivity. Qed.

Lemma SetY_run s e c v :
  heap s !! e = Some c -> SetY e v s = Set_ e (X c) v (Z c) (Order c) s.
Proof. intros Hc. unfold SetY, bind, load. rewrite Hc. reflexivity. Qed.

Lemma SetZ_run s e c v :
  heap s !! e = Some c -> SetZ e v s = Set_ e (X c) (Y c) v (Order c) s.
Proof. intros Hc. unfold SetZ, bind, load. rewrite Hc. reflexivity. Qed.

Lemma SetOrder_run s e c o :
  heap s !! e = Some c -> SetOrder e o s = Set_ e (X c) (Y c) (Z c) o s.
Proof. intros Hc. unfold SetOrder, bind, load. rewrite Hc. reflexivity. Qed.

Lemma Copy_run s e other d :
  heap s !! other = Some d ->
  Copy e other s = Set_ e (X d) (Y d) (Z d) (Order d) s.
Proof. intros Hd. unfold Copy, bind, load. rewrite Hd. reflexivity. Qed.

Lemma SetFromRotationMatrix_run s e c m o :
  heap s !! e = Some c ->
  SetFromRotationMatrix e (Some m) o s
  = Set_ e (decompose (Values m) (Order c)).1.1
           (decompose (Values m) (Order c)).1.2
           (decompose (Values m) (Order c)).2 o s.
Proof.
  intros Hc. unfold SetFromRotationMatrix, bind, load, deref. rewrite Hc.
  destruct (decompose (Values m) (Order c)) as [[x y] z]. reflexivity.
Qed.

End Setter.

(** ** The claims on the setters and accessors *)

Section SetterClaims.

Implicit Types (s : state K W) (e other : loc) (c d : Euler K) (o : int).


(** C7: a call of [Set] calls the observer exactly once, on the container,
    after the four fields are stored, whether or not they change, and then
    returns the container; so do [SetX], [SetY], [SetZ], [SetOrder], [Copy],
    [SetFromRotationMatrix] and [SetFromQuaternion].  When the observer does
    not return, neither does [Set]. *)
Theorem Set_calls_observer_once s e c :
  heap s !! e = Some c ->
  (forall x y z o h' w',
      let v := set_fields c x y z (clamp_order_int o) in
      run_func (OnChangeCallback c) e (<[e := v]> (heap s)) (world s) = Some (h', w') ->
      (<[e := v]> (heap s)) !! e = Some v /\
      Set_ e x y z o s
      = Ok e {| heap := h'; world := w';
                calls := calls s ++ [(OnChangeCallback c, e, <[e := v]> (heap s))] |}) /\
  (forall x y z o,
      run_func (OnChangeCallback c) e
        (<[e := set_fields c x y z (clamp_order_int o)]> (heap s)) (world s) = None ->
      Set_ e x y z o s = Panic) /\
  (0 <= Order c <= 5 ->
      notifies_once (Set_ e (X c) (Y c) (Z c) (Order c) s) s e c) /\
  (forall v, notifies_once (SetX e v s) s e
               (set_fields c v (Y c) (Z c) (clamp_order_int (Order c)))) /\
  (forall v, notifies_once (SetY e v s) s e
               (set_fields c (X c) v (Z c) (clamp_order_int (Order c)))) /\
  (forall v, notifies_once (SetZ e v s) s e
               (set_fields c (X c) (Y c) v (clamp_order_int (Order c)))) /\
  (forall o, notifies_once (SetOrder e o s) s e
               (set_fields c (X c) (Y c) (Z c) (clamp_order_int o))) /\
  (forall other d, heap s !! other = Some d ->
      notifies_once (Copy e other s) s e
        (set_fields c (X d) (Y d) (Z d) (clamp_order_int (Order d)))) /\
  (forall m o x y z, decompose (Values m) (Order c) = (x, y, z) ->
      notifies_once (SetFromRotationMatrix e (Some m) o s) s e
        (set_fields c x y z (clamp_order_int o))) /\
  (forall q o x y z,
      decompose (Values (FromQuaternion NewMatrix4_nil q)) (Order c) = (x, y, z) ->
      notifies_once (SetFromQuaternion e q o s) s e
        (set_fields c x y z (clamp_order_int o))).
Proof.
  intros Hc. repeat apply conj.
  - intros x y z o h' w' v Hrun. split; [apply lookup_insert_eq|].
    rewrite (Set_run s e c) by assumption. unfold store_and_notify.
    fold v. rewrite Hrun. reflexivity.
  - intros x y z o Hrun. rewrite (Set_run s e c) by assumption.
    unfold store_and_notify. rewrite Hrun. reflexivity.
  - intros Hrange.
    assert (Hsame : set_fields c (X c) (Y c) (Z c) (clamp_order_int (Order c)) = c).
    { destruct (clamp_order_int_range (Order c)) as (_ & _ & _ & Hk).
      rewrite Hk by assumption. destruct c; reflexivity. }
    pose proof (Set_notifies_once s e c (X c) (Y c) (Z c) (Order c) Hc) as Hn.
    rewrite Hsame in Hn. exact Hn.
  - intros v. rewrite (SetX_run s e c) by assumption.
    apply Set_notifies_once. assumption.
  - intros v. rewrite (SetY_run s e c) by assumption.
    apply Set_notifies_once. assumption.
  - intros v. rewrite (SetZ_run s e c) by assumption.
    apply Set_notifies_once. assumption.
  - intros o. rewrite (SetOrder_run s e c) by assumption.
    apply Set_notifies_once. assumption.
  - intros other d Hd. rewrite (Copy_run s e other d) by assumption.
    apply Set_notifies_once. assumption.
  - intros m o x y z Hdec.
    rewrite (SetFromRotationMatrix_run s e c) by assumption. rewrite Hdec.
    apply Set_notifies_once. assumption.
  - intros q o x y z Hdec. unfold SetFromQuaternion.
    rewrite (SetFromRotationMatrix_run s e c) by assumption. rewrite Hdec.
    apply Set_notifies_once. assumption.
Qed.

(** C8: [SetX(v)] is [Set(v, e.Y, e.Z, e.Order)], the other three fields
    read from the container; likewise [SetY], [SetZ] and [SetOrder]; and
    [Copy(other)] is [Set(other.X, other.Y, other.Z, other.Order)], also
    when [other] is the container itself.  The two runs are equal: same
    result, same store, same calls of the observer. *)
Theorem setters_are_Set s e c :
  heap s !! e = Some c ->
  (forall v, SetX e v s = Set_ e v (Y c) (Z c) (Order c) s) /\
  (forall v, SetY e v s = Set_ e (X c) v (Z c) (Order c) s) /\
  (forall v, SetZ e v s = Set_ e (X c) (Y c) v (Order c) s) /\
  (forall o, SetOrder e o s = Set_ e (X c) (Y c) (Z c) o s) /\
  (forall other d, heap s !! other = Some d ->
      Copy e other s = Set_ e (X d) (Y d) (Z d) (Order d) s) /\
  Copy e e s = Set_ e (X c) (Y c) (Z c) (Order c) s.
Proof.
  intros Hc. repeat split; intros.
  - apply SetX_run; assumption.
  - apply SetY_run; assumption.
  - apply SetZ_run; assumption.
  - apply SetOrder_run; assumption.
  - apply Copy_run; assumption.
  - apply Copy_run; assumption.
Qed.

(** C9: [XY()] and [XYZ()] return the container's [X], [Y] (and [Z]) and
    leave the state as it was: every field of every container, and the list
    of calls of observers. *)
Theorem accessors_read_only s e c :
  heap s !! e = Some c ->
  XY e s = Ok (X c, Y c) s /\ XYZ e s = Ok (X c, Y c, Z c) s.
Proof.
  intros Hc. unfold XY, XYZ, bind, load, ret. rewrite Hc. split; reflexivity.
Qed.

End SetterClaims.

(** ** The decomposition of a rotation matrix *)

Section Decomposition.

Implicit Types (s : state K W) (e : loc) (c : Euler K) (o order : int)
  (m : list float64).

Lemma row_of_default order :
  order <> EulerOrderYXZ -> order <> EulerOrderZXY -> order <> EulerOrderZYX ->
  order <> EulerOrderYZX -> order <> EulerOrderXZY ->
  row_of order = RowXYZ.
Proof.
  unfold EulerOrderYXZ, EulerOrderZXY, EulerOrderZYX, EulerOrderYZX, EulerOrderXZY.
  intros H1 H2 H3 H4 H5.
  destruct order as [|p|p]; try reflexivity.
  destruct p as [[[q|q|]|[q|q|]|]|[[q|q|]|[q|q|]|]|]; try reflexivity; congruence.
Qed.

(** [decompose] against the table: the row is the one of the order
    inspected, and the singular column is taken exactly when the test
    [math.Abs(entry) < epsilon] fails. *)
Lemma decompose_table m order :
  decompose m order
  = table_angles
      (negb (lt (math_Abs (table_source (row_of order) m)) lit_0_99999))
      (row_of order) m.
Proof.
  unfold decompose.
  destruct (Z.eqb_spec order EulerOrderYXZ) as [->|H1];
    [cbn [row_of EulerOrderYXZ table_source]; unfold table_angles, table_asin_arg;
     cbn [table_source]; destruct (lt _ _); reflexivity|].
  destruct (Z.eqb_spec order EulerOrderZXY) as [->|H2];
    [cbn [row_of EulerOrderZXY table_source]; unfold table_angles, table_asin_arg;
     cbn [table_source]; destruct (lt _ _); reflexivity|].
  destruct (Z.eqb_spec order EulerOrderZYX) as [->|H3];
    [cbn [row_of EulerOrderZYX table_source]; unfold table_angles, table_asin_arg;
     cbn [table_source]; destruct (lt _ _); reflexivity|].
  destruct (Z.eqb_spec order EulerOrderYZX) as [->|H4];
    [cbn [row_of EulerOrderYZX table_source]; unfold table_angles, table_asin_arg;
     cbn [table_source]; destruct (lt _ _); reflexivity|].
  destruct (Z.eqb_spec order EulerOrderXZY) as [->|H5];
    [cbn [row_of EulerOrderXZY table_source]; unfold table_angles, table_asin_arg;
     cbn [table_source]; destruct (lt _ _); reflexivity|].
  rewrite row_of_default by assumption.
  unfold table_angles, table_asin_arg; cbn [table_source].
  destruct (lt _ _); reflexivity.
Qed.

Lemma SFcompare_opp (a b : float64) :
  SFcompare (SFopp a) (SFopp b) = SFcompare b a.
Proof.
  destruct a as [sa|sa| |sa ma ea], b as [sb|sb| |sb mb eb]; simpl;
    try reflexivity; try (destruct sa; reflexivity);
    try (destruct sb; reflexivity);
    try (destruct sa, sb; reflexivity).
  destruct sa, sb; simpl; try reflexivity;
    rewrite (Z.compare_antisym ea eb);
    destruct (ea ?= eb); simpl; try reflexivity;
    first [ rewrite (Pos.compare_cont_antisym ma mb Eq)
          | rewrite (Pos.compare_cont_antisym mb ma Eq) ];
    reflexivity.
Qed.

Lemma le_neg (a b : float64) : le (neg a) (neg b) = le b a.
Proof. unfold le, neg, SFleb. rewrite SFcompare_opp. reflexivity. Qed.

(** Without a NaN, [Clamp(v, -1, 1)] lies between -1 and 1. *)
Lemma Clamp_unit_bounds (v : float64) :
  is_nan v = false ->
  le minus_one (Clamp v minus_one one) = true /\
  le (Clamp v minus_one one) one = true.
Proof.
  intros Hv. unfold Clamp.
  destruct (lt v minus_one) eqn:H1; [split; reflexivity|].
  destruct (lt one v) eqn:H2; [split; reflexivity|].
  rewrite lt_false_ge in H1, H2 by (assumption || reflexivity).
  apply negb_false_iff in H1, H2. split; [exact H1|exact H2].
Qed.

Lemma table_asin_arg_bounds (r : row) m :
  is_nan (table_source r m) = false ->
  le minus_one (table_asin_arg r m) = true /\
  le (table_asin_arg r m) one = true.
Proof.
  intros Hv. destruct (Clamp_unit_bounds _ Hv) as [Hlo Hhi].
  unfold table_asin_arg. destruct r; split; try assumption.
  all: try (change minus_one with (neg one); rewrite le_neg; assumption).
  all: change one with (neg minus_one); rewrite le_neg; assumption.
Qed.

End Decomposition.

(** ** The claims on [SetFromRotationMatrix] *)

Section DecompositionClaims.

Implicit Types (s : state K W) (e : loc) (c : Euler K) (o order : int).

(** C1: [SetFromRotationMatrix(m, o)] computes the angles by the branch of
    the order the container holds when it is called, [Order c]; the argument
    [o] goes to [Set] and it is its clamp that is stored, not the previous
    order. *)
Theorem SetFromRotationMatrix_order_roles s e c (m : Matrix4) o x y z :
  heap s !! e = Some c ->
  decompose (Values m) (Order c) = (x, y, z) ->
  SetFromRotationMatrix e (Some m) o s = Set_ e x y z o s /\
  SetFromRotationMatrix e (Some m) o s
    = store_and_notify (OnChangeCallback c) e
        (set_fields c x y z (clamp_order_int o)) s /\
  notifies_once (SetFromRotationMatrix e (Some m) o s) s e
    (set_fields c x y z (clamp_order_int o)) /\
  Order (set_fields c x y z (clamp_order_int o)) = Z.max 0 (Z.min 5 o).
Proof.
  intros Hc Hdec.
  assert (Hrun : SetFromRotationMatrix e (Some m) o s = Set_ e x y z o s).
  { rewrite (SetFromRotationMatrix_run s e c) by assumption.
    rewrite Hdec. reflexivity. }
  repeat apply conj.
  - exact Hrun.
  - rewrite Hrun. apply Set_run. assumption.
  - rewrite Hrun. apply Set_notifies_once. assumption.
  - reflexivity.
Qed.

(** C2: with the order [XYZ] in the container, or a value that is none of the
    six orders, [y = asin(clamp(m13, -1, 1))]; when [|m13| < epsilon],
    [x = atan2(-m23, m33)] and [z = atan2(-m12, m11)]; otherwise
    [x = atan2(m32, m22)] and [z = 0]; with [m13 = m[8]], [m23 = m[9]],
    [m33 = m[10]], [m12 = m[4]], [m11 = m[0]], [m32 = m[6]], [m22 = m[5]]. *)
Theorem SetFromRotationMatrix_XYZ s e c (m : Matrix4) o :
  heap s !! e = Some c ->
  Order c = EulerOrderXYZ \/ Order c < 0 \/ numEulerOrders <= Order c ->
  let m11 := index (Values m) 0 in let m12 := index (Values m) 4 in
  let m13 := index (Values m) 8 in let m22 := index (Values m) 5 in
  let m23 := index (Values m) 9 in let m32 := index (Values m) 6 in
  let m33 := index (Values m) 10 in
  let y := math_Asin (Clamp m13 minus_one one) in
  (lt (math_Abs m13) lit_0_99999 = true ->
     SetFromRotationMatrix e (Some m) o s
     = Set_ e (math_Atan2 (neg m23) m33) y (math_Atan2 (neg m12) m11) o s) /\
  (lt (math_Abs m13) lit_0_99999 = false ->
     SetFromRotationMatrix e (Some m) o s
     = Set_ e (math_Atan2 m32 m22) y zero o s).
Proof.
  intros Hc Hord. cbv zeta.
  rewrite (SetFromRotationMatrix_run s e c) by assumption.
  rewrite decompose_table.
  rewrite row_of_default
    by (unfold EulerOrderXYZ, EulerOrderYXZ, EulerOrderZXY, EulerOrderZYX,
          EulerOrderYZX, EulerOrderXZY, numEulerOrders in *; lia).
  cbn [table_source].
  split; intros ->; reflexivity.
Qed.

(** C4: with the order [YXZ] in the container,
    [x = asin(-clamp(m23, -1, 1))]; when [|m23| < epsilon],
    [y = atan2(m13, m33)] and [z = atan2(m21, m22)]; otherwise
    [y = atan2(-m31, m11)] and [z = 0]; with [m23 = m[9]], [m13 = m[8]],
    [m33 = m[10]], [m21 = m[1]], [m22 = m[5]], [m31 = m[2]], [m11 = m[0]]. *)
Theorem SetFromRotationMatrix_YXZ s e c (m : Matrix4) o :
  heap s !! e = Some c ->
  Order c = EulerOrderYXZ ->
  let m11 := index (Values m) 0 in let m13 := index (Values m) 8 in
  let m21 := index (Values m) 1 in let m22 := index (Values m) 5 in
  let m23 := index (Values m) 9 in let m31 := index (Values m) 2 in
  let m33 := index (Values m) 10 in
  let x := math_Asin (neg (Clamp m23 minus_one one)) in
  (lt (math_Abs m23) lit_0_99999 = true ->
     SetFromRotationMatrix e (Some m) o s
     = Set_ e x (math_Atan2 m13 m33) (math_Atan2 m21 m22) o s) /\
  (lt (math_Abs m23) lit_0_99999 = false ->
     SetFromRotationMatrix e (Some m) o s
     = Set_ e x (math_Atan2 (neg m31) m11) zero o s).
Proof.
  intros Hc Hord. cbv zeta.
  rewrite (SetFromRotationMatrix_run s e c) by assumption.
  rewrite decompose_table, Hord. cbn [row_of EulerOrderYXZ table_source].
  split; intros ->; reflexivity.
Qed.

(** C3, as the code has it: in every branch the non-singular column is taken
    if and only if [|entry| < 0.99999] for the entry under [asin]; every
    other entry takes the singular column, which is [|entry| >= 0.99999] or
    a NaN.  [asin] always gets [Clamp(entry, -1, 1)] or its opposite, which
    lies in [-1, 1] unless the entry is a NaN. *)
Theorem singular_test_is_not_less (m : list float64) order :
  let r := row_of order in
  let entry := table_source r m in
  let regular := lt (math_Abs entry) lit_0_99999 in
  decompose m order = table_angles (negb regular) r m /\
  (table_asin_arg r m = Clamp entry minus_one one \/
   table_asin_arg r m = neg (Clamp entry minus_one one)) /\
  (is_nan entry = false ->
     negb regular = ge (math_Abs entry) lit_0_99999 /\
     le minus_one (table_asin_arg r m) = true /\
     le (table_asin_arg r m) one = true) /\
  (is_nan entry = true ->
     negb regular = true /\ ge (math_Abs entry) lit_0_99999 = false).
Proof.
  intros r entry regular. repeat apply conj.
  - apply decompose_table.
  - unfold table_asin_arg. fold entry. destruct r; auto.
  - intros Hnan. split; [|apply table_asin_arg_bounds; assumption].
    unfold regular. rewrite lt_false_ge
      by (rewrite ?is_nan_abs; assumption || reflexivity).
    apply negb_involutive.
  - intros Hnan. unfold regular. clearbody entry.
    destruct entry; try discriminate. split; reflexivity.
Qed.

End DecompositionClaims.

(** ** The claims on [NewEuler] *)

Section ConstructorClaims.

Implicit Types (s : state K W) (e other : loc) (c d : Euler K) (o order : int).

(** C5: [NewEuler(0, 0, 0, 99)] stores the order 99, not its clamp 5: the
    constructor fills the field with its argument and does not go through
    [Set]. *)
Theorem NewEuler_order_99_unclamped s :
  exists e s',
    NewEuler zero zero zero 99 s = Ok e s' /\
    Order <$> heap s' !! e = Some 99 /\
    clamp_order_int 99 = 5.
Proof.
  eexists _, _. split; [reflexivity|]. cbn [heap].
  rewrite lookup_insert_eq. split; reflexivity.
Qed.

(** One mutation of a container whose observer is [eulerNoop]: it returns,
    the store changes at [e] only, the observer stays, the outer state is
    untouched, and one call of [eulerNoop] on [e] is made. *)
Lemma mutate_noop s e c (op : mutation) :
  heap s !! e = Some c ->
  OnChangeCallback c = eulerNoop ->
  mutation_ok (heap s) op ->
  exists v,
    OnChangeCallback v = eulerNoop /\
    mutate e op s
    = Ok e {| heap := <[e := v]> (heap s); world := world s;
              calls := calls s ++ [(eulerNoop, e, <[e := v]> (heap s))] |}.
Proof.
  intros Hc Hnoop Hok.
  assert (HSet : forall x y z o,
    Set_ e x y z o s
    = Ok e {| heap := <[e := set_fields c x y z (clamp_order_int o)]> (heap s);
              world := world s;
              calls := calls s ++
                [(eulerNoop, e, <[e := set_fields c x y z (clamp_order_int o)]> (heap s))] |}).
  { intros x y z o. rewrite (Set_run s e c) by assumption.
    unfold store_and_notify. rewrite Hnoop. reflexivity. }
  destruct op as [x y z o|v|v|v|o|other|q o|m4 o]; cbn [mutate].
  - eexists. split; [|apply HSet]. exact Hnoop.
  - rewrite (SetX_run s e c) by assumption.
    eexists. split; [|apply HSet]. exact Hnoop.
  - rewrite (SetY_run s e c) by assumption.
    eexists. split; [|apply HSet]. exact Hnoop.
  - rewrite (SetZ_run s e c) by assumption.
    eexists. split; [|apply HSet]. exact Hnoop.
  - rewrite (SetOrder_run s e c) by assumption.
    eexists. split; [|apply HSet]. exact Hnoop.
  - destruct Hok as [d Hd]. rewrite (Copy_run s e other d) by assumption.
    eexists. split; [|apply HSet]. exact Hnoop.
  - unfold SetFromQuaternion.
    rewrite (SetFromRotationMatrix_run s e c) by assumption.
    eexists. split; [|apply HSet]. exact Hnoop.
  - rewrite (SetFromRotationMatrix_run s e c) by assumption.
    eexists. split; [|apply HSet]. exact Hnoop.
Qed.

Lemma mutation_ok_insert (h : gmap loc (Euler K)) e v (op : mutation) :
  mutation_ok h op -> mutation_ok (<[e := v]> h) op.
Proof.
  destruct op; cbn [mutation_ok]; try exact id.
  intros Hsome. apply lookup_insert_is_Some.
  destruct (decide (e = other)); [left; assumption|right; split; assumption].
Qed.

Lemma mutate_all_noop (ops : list mutation) : forall s e c,
  heap s !! e = Some c ->
  OnChangeCallback c = eulerNoop ->
  Forall (mutation_ok (heap s)) ops ->
  exists s',
    mutate_all e ops s = Ok tt s' /\
    OnChangeCallback <$> heap s' !! e = Some eulerNoop /\
    world s' = world s /\
    (forall e', e' <> e -> heap s' !! e' = heap s !! e') /\
    exists new,
      calls s' = calls s ++ new /\
      length new = length ops /\
      Forall (fun r : call_record K => r.1 = (eulerNoop, e)) new.
Proof.
  induction ops as [|op ops IH]; intros s e c Hc Hnoop Hok.
  - exists s. cbn [mutate_all]. unfold ret.
    split; [reflexivity|]. split; [rewrite Hc, <- Hnoop; reflexivity|].
    split; [reflexivity|]. split; [reflexivity|].
    exists []. rewrite app_nil_r. repeat split. constructor.
  - inversion Hok as [|? ? Hop Hops]; subst.
    destruct (mutate_noop s e c op Hc Hnoop Hop) as (v & Hv & Hrun).
    cbn [mutate_all]. unfold bind. rewrite Hrun.
    set (s1 := {| heap := <[e := v]> (heap s); world := world s;
                  calls := calls s ++ [(eulerNoop, e, <[e := v]> (heap s))] |}).
    destruct (IH s1 e v) as (s' & Hall & Hcb & Hw & Hframe & new & Hcalls & Hlen & Hnew).
    { apply lookup_insert_eq. }
    { exact Hv. }
    { cbn [s1 heap]. eapply Forall_impl; [exact Hops|].
      intros op'. apply mutation_ok_insert. }
    exists s'. split; [exact Hall|]. split; [exact Hcb|].
    split; [exact Hw|]. split.
    + intros e' Hne. rewrite Hframe by assumption. cbn [s1 heap].
      apply lookup_insert_ne. congruence.
    + exists ((eulerNoop, e, <[e := v]> (heap s)) :: new).
      split; [rewrite Hcalls; cbn [s1 calls]; rewrite <- app_assoc; reflexivity|].
      split; [cbn [length]; rewrite Hlen; reflexivity|].
      constructor; [reflexivity|exact Hnew].
Qed.

(** C10: [NewEuler] installs [eulerNoop], which is not nil and changes
    nothing; from then on every run of mutations on the new container
    returns (no call of a nil function), keeps [eulerNoop] installed, calls
    it once per mutation, and leaves the outer state and the other
    containers as they were. *)
Theorem NewEuler_installs_eulerNoop s x y z order :
  exists e s1,
    NewEuler x y z order s = Ok e s1 /\
    heap s !! e = None /\
    OnChangeCallback <$> heap s1 !! e = Some eulerNoop /\
    @eulerNoop K <> nil_func /\
    (forall e' h w, run_func eulerNoop e' h w = Some (h, w)) /\
    forall ops : list mutation,
      Forall (mutation_ok (heap s1)) ops ->
      exists s2,
        mutate_all e ops s1 = Ok tt s2 /\
        OnChangeCallback <$> heap s2 !! e = Some eulerNoop /\
        world s2 = world s /\
        (forall e', e' <> e -> heap s2 !! e' = heap s !! e') /\
        exists new,
          calls s2 = calls s ++ new /\
          length new = length ops /\
          Forall (fun r : call_record K => r.1 = (eulerNoop, e)) new.
Proof.
  eexists _, _. split; [reflexivity|].
  set (e := fresh (dom (heap s))).
  assert (Hfresh : heap s !! e = None).
  { apply not_elem_of_dom. apply is_fresh. }
  split; [exact Hfresh|]. cbn [heap].
  split; [rewrite lookup_insert_eq; reflexivity|].
  split; [discriminate|]. split; [reflexivity|].
  intros ops Hok.
  set (c0 := {| X := x; Y := y; Z := z; Order := order;
                OnChangeCallback := eulerNoop |}) in *.
  destruct (mutate_all_noop ops
              {| heap := <[e := c0]> (heap s); world := world s; calls := calls s |}
              e c0)
    as (s2 & Hall & Hcb & Hw & Hframe & Hnew);
    [apply lookup_insert_eq|reflexivity|exact Hok|].
  exists s2. split; [exact Hall|]. split; [exact Hcb|].
  split; [exact Hw|]. split; [|exact Hnew].
  intros e' Hne. rewrite Hframe by assumption. cbn [heap].
  apply lookup_insert_ne. congruence.
Qed.

End ConstructorClaims.

(** ** Further properties: the other branches of the decomposition *)

Section Branches.

Implicit Types (s : state K W) (e : loc) (c : Euler K) (o order : int).

(** X1: Lines 122 to 130: with the order [ZXY] in the container,
    [x = asin(clamp(m32, -1, 1))]; when [|m32| < epsilon],
    [y = atan2(-m31, m33)] and [z = atan2(-m12, m22)]; otherwise [y = 0] and
    [z = atan2(m21, m11)]. *)
Theorem SetFromRotationMatrix_ZXY s e c (m : Matrix4) o :
  heap s !! e = Some c ->
  Order c = EulerOrderZXY ->
  let m11 := index (Values m) 0 in let m12 := index (Values m) 4 in
  let m21 := index (Values m) 1 in let m22 := index (Values m) 5 in
  let m31 := index (Values m) 2 in let m32 := index (Values m) 6 in
  let m33 := index (Values m) 10 in
  let x := math_Asin (Clamp m32 minus_one one) in
  (lt (math_Abs m32) lit_0_99999 = true ->
     SetFromRotationMatrix e (Some m) o s
     = Set_ e x (math_Atan2 (neg m31) m33) (math_Atan2 (neg m12) m22) o s) /\
  (lt (math_Abs m32) lit_0_99999 = false ->
     SetFromRotationMatrix e (Some m) o s
     = Set_ e x zero (math_Atan2 m21 m11) o s).
Proof.
  intros Hc Hord. cbv zeta.
  rewrite (SetFromRotationMatrix_run s e c) by assumption.
  unfold decompose. rewrite Hord.
  change (EulerOrderZXY =? EulerOrderYXZ) with false.
  change (EulerOrderZXY =? EulerOrderZXY) with true. cbv iota.
  split; intros ->; reflexivity.
Qed.

(** X2: Lines 131 to 139: with the order [ZYX] in the container,
    [y = asin(-clamp(m31, -1, 1))]; when [|m31| < epsilon],
    [x = atan2(m32, m33)] and [z = atan2(m21, m11)]; otherwise [x = 0] and
    [z = atan2(-m12, m22)]. *)
Theorem SetFromRotationMatrix_ZYX s e c (m : Matrix4) o :
  heap s !! e = Some c ->
  Order c = EulerOrderZYX ->
  let m11 := index (Values m) 0 in let m12 := index (Values m) 4 in
  let m21 := index (Values m) 1 in let m22 := index (Values m) 5 in
  let m31 := index (Values m) 2 in let m32 := index (Values m) 6 in
  let m33 := index (Values m) 10 in
  let y := math_Asin (neg (Clamp m31 minus_one one)) in
  (lt (math_Abs m31) lit_0_99999 = true ->
     SetFromRotationMatrix e (Some m) o s
     = Set_ e (math_Atan2 m32 m33) y (math_Atan2 m21 m11) o s) /\
  (lt (math_Abs m31) lit_0_99999 = false ->
     SetFromRotationMatrix e (Some m) o s
     = Set_ e zero y (math_Atan2 (neg m12) m22) o s).
Proof.
  intros Hc Hord. cbv zeta.
  rewrite (SetFromRotationMatrix_run s e c) by assumption.
  unfold decompose. rewrite Hord.
  change (EulerOrderZYX =? EulerOrderYXZ) with false.
  change (EulerOrderZYX =? EulerOrderZXY) with false.
  change (EulerOrderZYX =? EulerOrderZYX) with true. cbv iota.
  split; intros ->; reflexivity.
Qed.

(** X3: Lines 140 to 148: with the order [YZX] in the container,
    [z = asin(clamp(m21, -1, 1))]; when [|m21| < epsilon],
    [x = atan2(-m23, m22)] and [y = atan2(-m31, m11)]; otherwise [x = 0] and
    [y = atan2(m13, m33)]. *)
Theorem SetFromRotationMatrix_YZX s e c (m : Matrix4) o :
  heap s !! e = Some c ->
  Order c = EulerOrderYZX ->
  let m11 := index (Values m) 0 in let m13 := index (Values m) 8 in
  let m21 := index (Values m) 1 in let m22 := index (Values m) 5 in
  let m23 := index (Values m) 9 in let m31 := index (Values m) 2 in
  let m33 := index (Values m) 10 in
  let z := math_Asin (Clamp m21 minus_one one) in
  (lt (math_Abs m21) lit_0_99999 = true ->
     SetFromRotationMatrix e (Some m) o s
     = Set_ e (math_Atan2 (neg m23) m22) (math_Atan2 (neg m31) m11) z o s) /\
  (lt (math_Abs m21) lit_0_99999 = false ->
     SetFromRotationMatrix e (Some m) o s
     = Set_ e zero (math_Atan2 m13 m33) z o s).
Proof.
  intros Hc Hord. cbv zeta.
  rewrite (SetFromRotationMatrix_run s e c) by assumption.
  unfold decompose. rewrite Hord.
  change (EulerOrderYZX =? EulerOrderYXZ) with false.
  change (EulerOrderYZX =? EulerOrderZXY) with false.
  change (EulerOrderYZX =? EulerOrderZYX) with false.
  change (EulerOrderYZX =? EulerOrderYZX) with true. cbv iota.
  split; intros ->; reflexivity.
Qed.

(** X4: Lines 149 to 157: with the order [XZY] in the container,
    [z = asin(-clamp(m12, -1, 1))]; when [|m12| < epsilon],
    [x = atan2(m32, m22)] and [y = atan2(m13, m11)]; otherwise
    [x = atan2(-m23, m33)] and [y = 0]. *)
Theorem SetFromRotationMatrix_XZY s e c (m : Matrix4) o :
  heap s !! e = Some c ->
  Order c = EulerOrderXZY ->
  let m11 := index (Values m) 0 in let m12 := index (Values m) 4 in
  let m13 := index (Values m) 8 in let m22 := index (Values m) 5 in
  let m23 := index (Values m) 9 in let m32 := index (Values m) 6 in
  let m33 := index (Values m) 10 in
  let z := math_Asin (neg (Clamp m12 minus_one one)) in
  (lt (math_Abs m12) lit_0_99999 = true ->
     SetFromRotationMatrix e (Some m) o s
     = Set_ e (math_Atan2 m32 m22) (math_Atan2 m13 m11) z o s) /\
  (lt (math_Abs m12) lit_0_99999 = false ->
     SetFromRotationMatrix e (Some m) o s
     = Set_ e (math_Atan2 (neg m23) m33) zero z o s).
Proof.
  intros Hc Hord. cbv zeta.
  rewrite (SetFromRotationMatrix_run s e c) by assumption.
  unfold decompose. rewrite Hord.
  change (EulerOrderXZY =? EulerOrderYXZ) with false.
  change (EulerOrderXZY =? EulerOrderZXY) with false.
  change (EulerOrderXZY =? EulerOrderZYX) with false.
  change (EulerOrderXZY =? EulerOrderYZX) with false.
  change (EulerOrderXZY =? EulerOrderXZY) with true. cbv iota.
  split; intros ->; reflexivity.
Qed.

Lemma decompose_same_rotation (m m' : list float64) order :
  same_rotation m m' -> decompose m order = decompose m' order.
Proof.
  unfold same_rotation, rotation_indices. intros H.
  repeat match type of H with
         | Forall _ (_ :: _) =>
             apply Forall_cons in H; let Hi := fresh "Hi" in destruct H as [Hi H]
         end.
  unfold decompose.
  repeat match goal with
         | Hi : index m _ = index m' _ |- _ => rewrite Hi; clear Hi
         end.
  reflexivity.
Qed.

(** X5: Lines 100 to 107: only the upper left 3x3 block of the matrix is read.
    Two matrices that agree on the indices 0, 1, 2, 4, 5, 6, 8, 9 and 10
    give the same run, whatever the other seven entries (translation, last
    row) hold and whatever the order. *)
Theorem SetFromRotationMatrix_reads_rotation_block
    s e (m m' : Matrix4) o :
  same_rotation (Values m) (Values m') ->
  SetFromRotationMatrix e (Some m) o s = SetFromRotationMatrix e (Some m') o s.
Proof.
  intros Hsame. unfold SetFromRotationMatrix, bind, deref, load.
  destruct (heap s !! e) as [c|]; [|reflexivity].
  rewrite (decompose_same_rotation _ _ _ Hsame). reflexivity.
Qed.

(** X6: Lines 89 to 96: [SetFromQuaternion(q, o)] is [SetFromRotationMatrix] on
    the matrix [FromQuaternion] leaves in a new [Matrix4]; like it, it takes
    the angles by the order the container holds when called and stores the
    clamp of [o], and it calls the observer once. *)
Theorem SetFromQuaternion_order_roles s e c (q : Quaternion) o x y z :
  heap s !! e = Some c ->
  decompose (Values (FromQuaternion NewMatrix4_nil q)) (Order c) = (x, y, z) ->
  SetFromQuaternion e q o s
  = SetFromRotationMatrix e (Some (FromQuaternion NewMatrix4_nil q)) o s /\
  SetFromQuaternion e q o s
  = store_and_notify (OnChangeCallback c) e
      (set_fields c x y z (clamp_order_int o)) s.
Proof.
  intros Hc Hdec. split; [reflexivity|]. unfold SetFromQuaternion.
  rewrite (SetFromRotationMatrix_run s e c) by assumption. rewrite Hdec.
  apply Set_run. assumption.
Qed.

End Branches.

(** ** Further properties: runs of several calls *)

Section Runs.

Implicit Types (s : state K W) (e other : loc) (c d : Euler K) (o order : int).

Lemma accessors_run s e c :
  heap s !! e = Some c ->
  XY e s = Ok (X c, Y c) s /\ XYZ e s = Ok (X c, Y c, Z c) s.
Proof.
  intros Hc. unfold XY, XYZ, bind, load, ret. rewrite Hc. split; reflexivity.
Qed.

Lemma Set_noop s e c x y z o :
  heap s !! e = Some c ->
  OnChangeCallback c = eulerNoop ->
  Set_ e x y z o s
  = Ok e (after_noop e (set_fields c x y z (clamp_order_int o)) s).
Proof.
  intros Hc Hnoop. rewrite (Set_run s e c) by assumption.
  unfold store_and_notify. rewrite Hnoop. reflexivity.
Qed.

Lemma after_noop_lookup s e (v : Euler K) : heap (after_noop e v s) !! e = Some v.
Proof. apply lookup_insert_eq. Qed.

Lemma after_noop_twice s e (v v' : Euler K) :
  heap (after_noop e v' (after_noop e v s)) = heap (after_noop e v' s).
Proof. cbn [after_noop heap]. apply insert_insert_eq. Qed.

Lemma clamp_order_int_idem o :
  clamp_order_int (clamp_order_int o) = clamp_order_int o.
Proof. unfold clamp_order_int, numEulerOrders. lia. Qed.

Lemma SetFromRotationMatrix_noop s e c (m : Matrix4) o x y z :
  heap s !! e = Some c ->
  OnChangeCallback c = eulerNoop ->
  decompose (Values m) (Order c) = (x, y, z) ->
  SetFromRotationMatrix e (Some m) o s
  = Ok e (after_noop e (set_fields c x y z (clamp_order_int o)) s).
Proof.
  intros Hc Hnoop Hdec.
  rewrite (SetFromRotationMatrix_run s e c) by assumption. rewrite Hdec.
  apply Set_noop; assumption.
Qed.

(** X7: Lines 99 to 172, called twice: the order given to the first call is the
    one that selects the branch of the second.  With [eulerNoop] installed,
    after [SetFromRotationMatrix(m1, o1)] and [SetFromRotationMatrix(m2, o2)]
    the container holds the angles of [m2] by the order [clamp(o1, 0, 5)],
    under the order [clamp(o2, 0, 5)], and the observer was called twice. *)
Theorem SetFromRotationMatrix_twice s e c (m1 m2 : Matrix4) o1 o2
    x1 y1 z1 x2 y2 z2 :
  heap s !! e = Some c ->
  OnChangeCallback c = eulerNoop ->
  decompose (Values m1) (Order c) = (x1, y1, z1) ->
  decompose (Values m2) (clamp_order_int o1) = (x2, y2, z2) ->
  (SetFromRotationMatrix e (Some m1) o1;;;
   SetFromRotationMatrix e (Some m2) o2) s
  = Ok e (after_noop e (set_fields c x2 y2 z2 (clamp_order_int o2))
            (after_noop e (set_fields c x1 y1 z1 (clamp_order_int o1)) s)).
Proof.
  intros Hc Hnoop Hd1 Hd2. unfold bind.
  rewrite (SetFromRotationMatrix_noop s e c m1 o1 x1 y1 z1) by assumption.
  rewrite (SetFromRotationMatrix_noop _ e
             (set_fields c x1 y1 z1 (clamp_order_int o1)) m2 o2 x2 y2 z2);
    [reflexivity|apply after_noop_lookup|exact Hnoop|exact Hd2].
Qed.

(** X8: Lines 70 to 72 and 99 to 172: to decompose by a chosen order, set it
    first.  With [eulerNoop] installed, after [SetOrder(o)] and
    [SetFromRotationMatrix(m, o)] the container holds the angles of [m] by
    the order [clamp(o, 0, 5)], under that same order. *)
Theorem SetOrder_then_SetFromRotationMatrix s e c (m : Matrix4) o x y z :
  heap s !! e = Some c ->
  OnChangeCallback c = eulerNoop ->
  decompose (Values m) (clamp_order_int o) = (x, y, z) ->
  exists s',
    (SetOrder e o;;; SetFromRotationMatrix e (Some m) o) s = Ok e s' /\
    heap s' !! e = Some (set_fields c x y z (clamp_order_int o)) /\
    length (calls s') = (length (calls s) + 2)%nat.
Proof.
  intros Hc Hnoop Hdec. unfold bind.
  rewrite (SetOrder_run s e c), (Set_noop s e c) by assumption.
  rewrite (SetFromRotationMatrix_noop _ e
             (set_fields c (X c) (Y c) (Z c) (clamp_order_int o)) m o x y z);
    [|apply after_noop_lookup|exact Hnoop|exact Hdec].
  eexists. split; [reflexivity|]. split; [apply after_noop_lookup|].
  cbn [after_noop calls]. rewrite !length_app. cbn [length]. lia.
Qed.

(** X9: Lines 76, 112 and 158 to 160: an order above 5 in the container is
    decomposed as [XYZ] by the [switch] but clamped to [XZY] by [Set].
    With [eulerNoop] installed and such an order [k] in the container,
    [SetFromRotationMatrix(m, k)] stores the [XYZ] angles of [m] under the
    order [XZY]. *)
Theorem SetFromRotationMatrix_order_above_range s e c (m : Matrix4) x y z :
  heap s !! e = Some c ->
  OnChangeCallback c = eulerNoop ->
  numEulerOrders <= Order c ->
  decompose (Values m) EulerOrderXYZ = (x, y, z) ->
  SetFromRotationMatrix e (Some m) (Order c) s
  = Ok e (after_noop e (set_fields c x y z EulerOrderXZY) s).
Proof.
  intros Hc Hnoop Hk Hdec. unfold numEulerOrders in Hk.
  assert (Hrow : decompose (Values m) (Order c) = (x, y, z)).
  { rewrite <- Hdec, !decompose_table.
    rewrite (row_of_default (Order c))
      by (unfold EulerOrderYXZ, EulerOrderZXY, EulerOrderZYX, EulerOrderYZX,
            EulerOrderXZY; lia).
    reflexivity. }
  rewrite (SetFromRotationMatrix_noop s e c m (Order c) x y z) by assumption.
  replace (clamp_order_int (Order c)) with EulerOrderXZY
    by (unfold clamp_order_int, numEulerOrders, EulerOrderXZY; lia).
  reflexivity.
Qed.

(** One mutation of a container whose observer is [eulerNoop] leaves an
    order between 0 and 5. *)
Lemma mutate_noop_order s e c (op : mutation) :
  heap s !! e = Some c ->
  OnChangeCallback c = eulerNoop ->
  mutation_ok (heap s) op ->
  exists v,
    OnChangeCallback v = eulerNoop /\ 0 <= Order v <= 5 /\
    mutate e op s = Ok e (after_noop e v s).
Proof.
  intros Hc Hnoop Hok.
  assert (HSet : forall x y z o, exists v,
    OnChangeCallback v = eulerNoop /\ 0 <= Order v <= 5 /\
    Set_ e x y z o s = Ok e (after_noop e v s)).
  { intros x y z o. exists (set_fields c x y z (clamp_order_int o)).
    split; [exact Hnoop|]. split; [apply clamp_order_int_range|].
    apply Set_noop; assumption. }
  destruct op as [x y z o|v|v|v|o|other|q o|m4 o]; cbn [mutate].
  - apply HSet.
  - rewrite (SetX_run s e c) by assumption. apply HSet.
  - rewrite (SetY_run s e c) by assumption. apply HSet.
  - rewrite (SetZ_run s e c) by assumption. apply HSet.
  - rewrite (SetOrder_run s e c) by assumption. apply HSet.
  - destruct Hok as [d Hd]. rewrite (Copy_run s e other d) by assumption.
    apply HSet.
  - unfold SetFromQuaternion.
    rewrite (SetFromRotationMatrix_run s e c) by assumption. apply HSet.
  - rewrite (SetFromRotationMatrix_run s e c) by assumption. apply HSet.
Qed.

Lemma mutate_all_order (ops : list mutation) : forall s e c,
  heap s !! e = Some c ->
  OnChangeCallback c = eulerNoop ->
  0 <= Order c <= 5 \/ ops <> [] ->
  Forall (mutation_ok (heap s)) ops ->
  exists s' v,
    mutate_all e ops s = Ok tt s' /\
    heap s' !! e = Some v /\ 0 <= Order v <= 5.
Proof.
  induction ops as [|op ops IH]; intros s e c Hc Hnoop Hstart Hok.
  - destruct Hstart as [Hrange|Hne]; [|congruence].
    exists s, c. repeat split; try assumption; apply Hrange.
  - inversion Hok as [|? ? Hop Hops]; subst.
    destruct (mutate_noop_order s e c op Hc Hnoop Hop) as (v & Hv & Hrange & Hrun).
    cbn [mutate_all]. unfold bind. rewrite Hrun.
    apply (IH _ e v).
    + apply after_noop_lookup.
    + exact Hv.
    + left. exact Hrange.
    + cbn [after_noop heap]. eapply Forall_impl; [exact Hops|].
      intros op'. apply mutation_ok_insert.
Qed.

(** X10: Lines 55 to 96 and 99 to 172: the mutating methods restore the order
    invariant.  With [eulerNoop] installed, whatever order the container
    starts with (for instance one that [NewEuler] was given out of range),
    after one or more mutations its order is between 0 and 5. *)
Theorem mutations_restore_order_range s e c (ops : list mutation) :
  heap s !! e = Some c ->
  OnChangeCallback c = eulerNoop ->
  ops <> [] ->
  Forall (mutation_ok (heap s)) ops ->
  exists s' v,
    mutate_all e ops s = Ok tt s' /\
    heap s' !! e = Some v /\ 0 <= Order v <= 5.
Proof.
  intros Hc Hnoop Hne Hok.
  apply (mutate_all_order ops s e c); auto.
Qed.

(** X11: Lines 45 to 52 and 75 to 82: what [Set] stores is what the accessors
    read.  With [eulerNoop] installed, [XYZ()] after [Set(x, y, z, o)]
    returns [(x, y, z)] and [XY()] returns [(x, y)], bit for bit (a NaN or a
    negative zero included), and the accessors add no call of the
    observer. *)
Theorem Set_then_accessors s e c x y z o :
  heap s !! e = Some c ->
  OnChangeCallback c = eulerNoop ->
  let s1 := after_noop e (set_fields c x y z (clamp_order_int o)) s in
  (Set_ e x y z o;;; XYZ e) s = Ok (x, y, z) s1 /\
  (Set_ e x y z o;;; XY e) s = Ok (x, y) s1 /\
  calls s1 = calls s ++ [(eulerNoop, e, heap s1)].
Proof.
  intros Hc Hnoop s1. unfold bind.
  rewrite (Set_noop s e c) by assumption. fold s1.
  assert (Hl : heap s1 !! e = Some (set_fields c x y z (clamp_order_int o)))
    by apply after_noop_lookup.
  destruct (accessors_run s1 e _ Hl) as [HXY HXYZ].
  rewrite HXY, HXYZ. repeat split.
Qed.

End Runs.

(** ** Further properties: idempotence, copies, nil pointers *)

Section Composition.

Implicit Types (s : state K W) (e other : loc) (c d : Euler K) (o order : int).

(** X12: Lines 75 to 82: [Set] is idempotent on the store but not on the
    notifications.  With [eulerNoop] installed, a second [Set] with the same
    arguments leaves the store of the first and calls the observer a second
    time. *)
Theorem Set_twice_same s e c x y z o :
  heap s !! e = Some c ->
  OnChangeCallback c = eulerNoop ->
  exists s1 s2,
    Set_ e x y z o s = Ok e s1 /\
    (Set_ e x y z o;;; Set_ e x y z o) s = Ok e s2 /\
    heap s2 = heap s1 /\ world s2 = world s1 /\
    calls s2 = calls s1 ++ [(eulerNoop, e, heap s1)].
Proof.
  intros Hc Hnoop.
  set (v := set_fields c x y z (clamp_order_int o)).
  exists (after_noop e v s), (after_noop e v (after_noop e v s)).
  split; [apply Set_noop; assumption|].
  split.
  - unfold bind. rewrite (Set_noop s e c) by assumption. fold v.
    rewrite (Set_noop _ e v) by (apply after_noop_lookup || exact Hnoop).
    reflexivity.
  - split; [apply after_noop_twice|]. split; [reflexivity|].
    cbn [after_noop calls heap]. rewrite insert_insert_eq. reflexivity.
Qed.

(** X13: Lines 55 to 67 against 75 to 82: the three single-field setters in a row
    store what one [Set] stores, and notify three times instead of once.
    With [eulerNoop] installed, [SetX(x)], [SetY(y)], [SetZ(z)] leave the
    store of [Set(x, y, z, e.Order)]; the first run adds three calls of the
    observer, the second one. *)
Theorem three_setters_against_Set s e c x y z :
  heap s !! e = Some c ->
  OnChangeCallback c = eulerNoop ->
  exists s3 s1,
    (SetX e x;;; SetY e y;;; SetZ e z) s = Ok e s3 /\
    Set_ e x y z (Order c) s = Ok e s1 /\
    heap s3 = heap s1 /\
    length (calls s3) = (length (calls s) + 3)%nat /\
    length (calls s1) = (length (calls s) + 1)%nat.
Proof.
  intros Hc Hnoop.
  set (k := clamp_order_int (Order c)).
  set (v1 := set_fields c x (Y c) (Z c) k).
  set (v2 := set_fields c x y (Z c) k).
  set (v3 := set_fields c x y z k).
  assert (H2 : set_fields v1 (X v1) y (Z v1) (clamp_order_int (Order v1)) = v2)
    by (unfold v1, v2, k; cbn [set_fields X Y Z Order OnChangeCallback];
        rewrite clamp_order_int_idem; reflexivity).
  assert (H3 : set_fields v2 (X v2) (Y v2) z (clamp_order_int (Order v2)) = v3)
    by (unfold v2, v3, k; cbn [set_fields X Y Z Order OnChangeCallback];
        rewrite clamp_order_int_idem; reflexivity).
  exists (after_noop e v3 (after_noop e v2 (after_noop e v1 s))),
         (after_noop e v3 s).
  split.
  - unfold bind.
    rewrite (SetX_run s e c), (Set_noop s e c) by assumption. fold k v1.
    rewrite (SetY_run _ e v1), (Set_noop _ e v1)
      by (apply after_noop_lookup || exact Hnoop).
    rewrite H2.
    rewrite (SetZ_run _ e v2), (Set_noop _ e v2)
      by (apply after_noop_lookup || exact Hnoop).
    rewrite H3. reflexivity.
  - split; [apply Set_noop; assumption|].
    split; [rewrite !after_noop_twice; reflexivity|].
    cbn [after_noop calls]. rewrite !length_app. cbn [length]. lia.
Qed.

(** X14: Lines 85 to 87: [Copy] copies the angles and the (clamped) order, not
    the observer, and notifies the destination only.  With [eulerNoop]
    installed at [e], after [e.Copy(other)] the container [e] holds the
    [X], [Y], [Z] of [other] and the clamp of its order, keeps its own
    observer, every other container (so [other], when it is another one) is
    as before, and the one call made is of the observer of [e]. *)
Theorem Copy_fields_not_observer s e other c d :
  heap s !! e = Some c ->
  heap s !! other = Some d ->
  OnChangeCallback c = eulerNoop ->
  exists s',
    Copy e other s = Ok e s' /\
    heap s' !! e
    = Some {| X := X d; Y := Y d; Z := Z d;
              Order := clamp_order_int (Order d);
              OnChangeCallback := OnChangeCallback c |} /\
    (forall e', e' <> e -> heap s' !! e' = heap s !! e') /\
    world s' = world s /\
    calls s' = calls s ++ [(OnChangeCallback c, e, heap s')] /\
    (0 <= Order d <= 5 ->
       forall v, heap s' !! e = Some v ->
         (X v, Y v, Z v, Order v) = (X d, Y d, Z d, Order d)).
Proof.
  intros Hc Hd Hnoop.
  exists (after_noop e (set_fields c (X d) (Y d) (Z d) (clamp_order_int (Order d))) s).
  split; [rewrite (Copy_run s e other d) by assumption; apply Set_noop; assumption|].
  split; [apply after_noop_lookup|].
  split; [intros e' Hne; cbn [after_noop heap]; apply lookup_insert_ne; congruence|].
  split; [reflexivity|].
  split; [rewrite Hnoop; reflexivity|].
  intros Hrange v Hv. rewrite after_noop_lookup in Hv. injection Hv as <-.
  cbn [set_fields X Y Z Order].
  destruct (clamp_order_int_range (Order d)) as (_ & _ & _ & Hk).
  rewrite Hk by assumption. reflexivity.
Qed.

(** X15: Lines 45 to 96 and 99 to 172: every method panics on a nil receiver, and
    [Copy] on a nil argument, [SetFromRotationMatrix] on a nil matrix; none
    of them returns. *)
Theorem nil_pointers_panic s e :
  heap s !! e = None ->
  XY e s = Panic /\ XYZ e s = Panic /\
  (forall x y z o, Set_ e x y z o s = Panic) /\
  (forall v, SetX e v s = Panic) /\
  (forall v, SetY e v s = Panic) /\
  (forall v, SetZ e v s = Panic) /\
  (forall o, SetOrder e o s = Panic) /\
  (forall other, Copy e other s = Panic) /\
  (forall other, Copy other e s = Panic) /\
  (forall m4 o, SetFromRotationMatrix e m4 o s = Panic) /\
  (forall e' o, SetFromRotationMatrix e' None o s = Panic) /\
  (forall q o, SetFromQuaternion e q o s = Panic).
Proof.
  intros He. repeat apply conj; intros;
    unfold XY, XYZ, SetX, SetY, SetZ, SetOrder, Copy, SetFromQuaternion,
      SetFromRotationMatrix, Set_, bind, load, assign, deref;
    rewrite ?He; try reflexivity.
  - destruct (heap s !! other) as [d|]; [rewrite He|]; reflexivity.
  - destruct m4; rewrite ?He; reflexivity.
Qed.

(** X16: Lines 27 to 35: [NewEuler] makes a container of its own.  Its address
    was free, the containers already there are as before, no observer is
    called, and the accessors read back the three angles given, bit for
    bit. *)
Theorem NewEuler_allocates s x y z order :
  exists e s1,
    NewEuler x y z order s = Ok e s1 /\
    heap s !! e = None /\
    (forall e', e' <> e -> heap s1 !! e' = heap s !! e') /\
    world s1 = world s /\ calls s1 = calls s /\
    XY e s1 = Ok (x, y) s1 /\ XYZ e s1 = Ok (x, y, z) s1.
Proof.
  eexists _, _. split; [reflexivity|].
  set (e := fresh (dom (heap s))).
  split; [apply not_elem_of_dom, is_fresh|].
  split; [intros e' Hne; cbn [heap]; apply lookup_insert_ne; congruence|].
  split; [reflexivity|]. split; [reflexivity|].
  apply (accessors_run _ e
           {| X := x; Y := y; Z := z; Order := order;
              OnChangeCallback := eulerNoop |}).
  apply lookup_insert_eq.
Qed.

End Composition.

End Model.


(** ** Concrete runs *)

Lemma SetFromRotationMatrix_order_roles_witness :
  Order sample_euler = EulerOrderYXZ /\
  exists s',
    SetFromRotationMatrix no_closure asin_stand_in atan2_stand_in
      1%positive (Some identity_matrix) 7 sample_state = Ok 1%positive s' /\
    heap s' !! 1%positive
    = Some {| X := asin_stand_in (neg zero); Y := atan2_stand_in zero one;
              Z := atan2_stand_in zero one; Order := 5;
              OnChangeCallback := eulerNoop |}.
Proof.
  split; [reflexivity|].
  destruct (SetFromRotationMatrix_order_roles no_closure asin_stand_in
              atan2_stand_in sample_state 1%positive sample_euler
              identity_matrix 7 _ _ _ eq_refl eq_refl) as (_ & Hrun & _).
  rewrite Hrun. eexists. split; reflexivity.
Defined.

Lemma SetFromRotationMatrix_XYZ_witness :
  Order sample_default = 99 /\
  SetFromRotationMatrix no_closure asin_stand_in atan2_stand_in
    1%positive (Some identity_matrix) 0 sample_state_default
  = Set_ no_closure 1%positive
      (atan2_stand_in (neg zero) one)
      (asin_stand_in (Clamp zero minus_one one))
      (atan2_stand_in (neg zero) one) 0 sample_state_default.
Proof.
  split; [reflexivity|].
  apply (SetFromRotationMatrix_XYZ no_closure asin_stand_in atan2_stand_in
           sample_state_default 1%positive sample_default identity_matrix 0
           eq_refl).
  - right. right. vm_compute. discriminate.
  - reflexivity.
Defined.

Lemma SetFromRotationMatrix_YXZ_witness :
  SetFromRotationMatrix no_closure asin_stand_in atan2_stand_in
    1%positive (Some identity_matrix) 0 sample_state
  = Set_ no_closure 1%positive
      (asin_stand_in (neg (Clamp zero minus_one one)))
      (atan2_stand_in zero one) (atan2_stand_in zero one) 0 sample_state.
Proof.
  apply (SetFromRotationMatrix_YXZ no_closure asin_stand_in atan2_stand_in
           sample_state 1%positive sample_euler identity_matrix 0
           eq_refl eq_refl).
  reflexivity.
Defined.


Lemma Set_calls_observer_once_witness :
  Set_ no_closure 1%positive one zero minus_one 1 sample_state
  = Ok 1%positive
      {| heap := {[ 1%positive := sample_euler ]}; world := tt;
         calls := [(eulerNoop, 1%positive, {[ 1%positive := sample_euler ]})] |}.
Proof.
  destruct (Set_calls_observer_once no_closure asin_stand_in atan2_stand_in
              unit identity_matrix (fun t _ => t)
              sample_state 1%positive sample_euler eq_refl) as (Hset & _).
  destruct (Hset one zero minus_one 1 {[ 1%positive := sample_euler ]} tt eq_refl)
    as (_ & Hrun).
  exact Hrun.
Defined.

Lemma setters_are_Set_witness :
  SetX no_closure 1%positive zero sample_state
  = Set_ no_closure 1%positive zero zero minus_one 1 sample_state /\
  Copy no_closure 1%positive 1%positive sample_state
  = Set_ no_closure 1%positive one zero minus_one 1 sample_state.
Proof.
  destruct (setters_are_Set no_closure sample_state 1%positive sample_euler
              eq_refl) as (HX & _ & _ & _ & _ & HC).
  split; [apply HX|apply HC].
Defined.

Lemma accessors_read_only_witness :
  XY 1%positive sample_state = Ok (one, zero) sample_state /\
  XYZ 1%positive sample_state = Ok (one, zero, minus_one) sample_state.
Proof.
  apply (accessors_read_only sample_state 1%positive sample_euler eq_refl).
Defined.

(** C3, as the specification words it, fails on a NaN: with [m13] a NaN and
    the order [XYZ], [|m13| >= 0.99999] does not hold, and the singular
    column is taken all the same ([x = atan2(m32, m22)], [z = 0]), whatever
    [asin] and [atan2] compute.  So the table read with the test
    [|entry| >= 0.99999] for the singular column is not what [decompose]
    computes. *)
Lemma singular_column_on_NaN :
  ge (math_Abs (index (Values nan_matrix) 8)) lit_0_99999 = false /\
  (forall asin atan2,
     decompose asin atan2 (Values nan_matrix) EulerOrderXYZ
     = (atan2 zero one, asin (Clamp S754_nan minus_one one), zero)) /\
  ~ (forall asin atan2 (m : list float64) (order : int),
       decompose asin atan2 m order
       = table_angles asin atan2
           (ge (math_Abs (table_source (row_of order) m)) lit_0_99999)
           (row_of order) m).
Proof.
  split; [reflexivity|]. split; [reflexivity|].
  intros H.
  specialize (H asin_stand_in atan2_stand_in (Values nan_matrix) EulerOrderXYZ).
  vm_compute in H. discriminate H.
Defined.

(** ** Concrete runs of the further properties *)

Lemma SetFromRotationMatrix_ZXY_witness :
  SetFromRotationMatrix no_closure asin_stand_in atan2_stand_in
    1%positive (Some identity_matrix) 0 (sample_state_ordered EulerOrderZXY)
  = Set_ no_closure 1%positive
      (asin_stand_in (Clamp zero minus_one one))
      (atan2_stand_in (neg zero) one) (atan2_stand_in (neg zero) one)
      0 (sample_state_ordered EulerOrderZXY).
Proof.
  apply (SetFromRotationMatrix_ZXY no_closure asin_stand_in atan2_stand_in
           (sample_state_ordered EulerOrderZXY) 1%positive
           (sample_ordered EulerOrderZXY) identity_matrix 0 eq_refl eq_refl).
  reflexivity.
Defined.

Lemma SetFromRotationMatrix_ZYX_witness :
  SetFromRotationMatrix no_closure asin_stand_in atan2_stand_in
    1%positive (Some identity_matrix) 0 (sample_state_ordered EulerOrderZYX)
  = Set_ no_closure 1%positive
      (atan2_stand_in zero one)
      (asin_stand_in (neg (Clamp zero minus_one one)))
      (atan2_stand_in zero one)
      0 (sample_state_ordered EulerOrderZYX).
Proof.
  apply (SetFromRotationMatrix_ZYX no_closure asin_stand_in atan2_stand_in
           (sample_state_ordered EulerOrderZYX) 1%positive
           (sample_ordered EulerOrderZYX) identity_matrix 0 eq_refl eq_refl).
  reflexivity.
Defined.

Lemma SetFromRotationMatrix_YZX_witness :
  SetFromRotationMatrix no_closure asin_stand_in atan2_stand_in
    1%positive (Some identity_matrix) 0 (sample_state_ordered EulerOrderYZX)
  = Set_ no_closure 1%positive
      (atan2_stand_in (neg zero) one) (atan2_stand_in (neg zero) one)
      (asin_stand_in (Clamp zero minus_one one))
      0 (sample_state_ordered EulerOrderYZX).
Proof.
  apply (SetFromRotationMatrix_YZX no_closure asin_stand_in atan2_stand_in
           (sample_state_ordered EulerOrderYZX) 1%positive
           (sample_ordered EulerOrderYZX) identity_matrix 0 eq_refl eq_refl).
  reflexivity.
Defined.

Lemma SetFromRotationMatrix_XZY_witness :
  SetFromRotationMatrix no_closure asin_stand_in atan2_stand_in
    1%positive (Some identity_matrix) 0 (sample_state_ordered EulerOrderXZY)
  = Set_ no_closure 1%positive
      (atan2_stand_in zero one) (atan2_stand_in zero one)
      (asin_stand_in (neg (Clamp zero minus_one one)))
      0 (sample_state_ordered EulerOrderXZY).
Proof.
  apply (SetFromRotationMatrix_XZY no_closure asin_stand_in atan2_stand_in
           (sample_state_ordered EulerOrderXZY) 1%positive
           (sample_ordered EulerOrderXZY) identity_matrix 0 eq_refl eq_refl).
  reflexivity.
Defined.

Lemma SetFromRotationMatrix_reads_rotation_block_witness :
  Values identity_matrix <> Values translated_identity /\
  SetFromRotationMatrix no_closure asin_stand_in atan2_stand_in
    1%positive (Some identity_matrix) 3 sample_state
  = SetFromRotationMatrix no_closure asin_stand_in atan2_stand_in
      1%positive (Some translated_identity) 3 sample_state.
Proof.
  split; [discriminate|].
  apply (SetFromRotationMatrix_reads_rotation_block no_closure asin_stand_in
           atan2_stand_in sample_state 1%positive identity_matrix
           translated_identity 3).
  repeat constructor.
Defined.

Lemma SetFromQuaternion_order_roles_witness :
  SetFromQuaternion no_closure asin_stand_in atan2_stand_in unit
    identity_matrix (fun t _ => t) 1%positive tt 7 sample_state
  = store_and_notify no_closure eulerNoop 1%positive
      {| X := asin_stand_in (neg zero); Y := atan2_stand_in zero one;
         Z := atan2_stand_in zero one; Order := 5;
         OnChangeCallback := eulerNoop |} sample_state.
Proof.
  apply (SetFromQuaternion_order_roles no_closure asin_stand_in atan2_stand_in
           unit identity_matrix (fun t _ => t) sample_state 1%positive
           sample_euler tt 7 _ _ _ eq_refl eq_refl).
Defined.

Lemma SetFromRotationMatrix_twice_witness :
  exists s',
    bind (SetFromRotationMatrix no_closure asin_stand_in atan2_stand_in
            1%positive (Some identity_matrix) 0)
         (fun _ => SetFromRotationMatrix no_closure asin_stand_in atan2_stand_in
                     1%positive (Some identity_matrix) 3) sample_state
    = Ok 1%positive s' /\
    heap s' !! 1%positive
    = Some {| X := atan2_stand_in (neg zero) one;
              Y := asin_stand_in (Clamp zero minus_one one);
              Z := atan2_stand_in (neg zero) one;
              Order := 3; OnChangeCallback := eulerNoop |}.
Proof.
  eexists. split.
  - apply (SetFromRotationMatrix_twice no_closure asin_stand_in atan2_stand_in
             sample_state 1%positive sample_euler identity_matrix identity_matrix
             0 3 _ _ _ _ _ _ eq_refl eq_refl eq_refl eq_refl).
  - reflexivity.
Defined.

Lemma SetOrder_then_SetFromRotationMatrix_witness :
  exists s',
    bind (SetOrder no_closure 1%positive 3)
         (fun _ => SetFromRotationMatrix no_closure asin_stand_in atan2_stand_in
                     1%positive (Some identity_matrix) 3) sample_state
    = Ok 1%positive s' /\
    heap s' !! 1%positive
    = Some {| X := zero; Y := asin_stand_in (neg (Clamp zero minus_one one));
              Z := atan2_stand_in zero one;
              Order := 3; OnChangeCallback := eulerNoop |}.
Proof.
  destruct (SetOrder_then_SetFromRotationMatrix no_closure asin_stand_in
              atan2_stand_in sample_state 1%positive sample_euler
              identity_matrix 3 _ _ _ eq_refl eq_refl eq_refl)
    as (s' & Hrun & Hheap & _).
  exists s'. split; [exact Hrun|exact Hheap].
Defined.

Lemma SetFromRotationMatrix_order_above_range_witness :
  exists s',
    SetFromRotationMatrix no_closure asin_stand_in atan2_stand_in
      1%positive (Some identity_matrix) 99 sample_state_default
    = Ok 1%positive s' /\
    heap s' !! 1%positive
    = Some {| X := atan2_stand_in (neg zero) one;
              Y := asin_stand_in (Clamp zero minus_one one);
              Z := atan2_stand_in (neg zero) one;
              Order := EulerOrderXZY; OnChangeCallback := eulerNoop |}.
Proof.
  eexists. split.
  - apply (SetFromRotationMatrix_order_above_range no_closure asin_stand_in
             atan2_stand_in sample_state_default 1%positive sample_default
             identity_matrix (atan2_stand_in (neg zero) one)
             (asin_stand_in (Clamp zero minus_one one))
             (atan2_stand_in (neg zero) one) eq_refl eq_refl).
    + vm_compute. discriminate.
    + reflexivity.
  - reflexivity.
Defined.

Lemma mutations_restore_order_range_witness :
  Order sample_default = 99 /\
  exists s' v,
    mutate_all no_closure asin_stand_in atan2_stand_in unit identity_matrix
      (fun t _ => t) 1%positive [MSetX unit one] sample_state_default = Ok tt s' /\
    heap s' !! 1%positive = Some v /\ 0 <= Order v <= 5.
Proof.
  split; [reflexivity|].
  apply (mutations_restore_order_range no_closure asin_stand_in atan2_stand_in
           unit identity_matrix (fun t _ => t) sample_state_default 1%positive
           sample_default [MSetX unit one] eq_refl eq_refl).
  - discriminate.
  - repeat constructor.
Defined.

Lemma Set_then_accessors_witness :
  bind (Set_ no_closure 1%positive S754_nan (S754_zero true) one 2)
       (fun _ => XYZ 1%positive) sample_state
  = Ok (S754_nan, S754_zero true, one)
      (after_noop 1%positive
         {| X := S754_nan; Y := S754_zero true; Z := one; Order := 2;
            OnChangeCallback := eulerNoop |} sample_state).
Proof.
  apply (Set_then_accessors no_closure sample_state 1%positive sample_euler
           S754_nan (S754_zero true) one 2 eq_refl eq_refl).
Defined.

Lemma Set_twice_same_witness :
  exists s1 s2,
    Set_ no_closure 1%positive zero zero zero 0 sample_state = Ok 1%positive s1 /\
    bind (Set_ no_closure 1%positive zero zero zero 0)
         (fun _ => Set_ no_closure 1%positive zero zero zero 0) sample_state
    = Ok 1%positive s2 /\
    heap s2 = heap s1 /\ length (calls s2) = 2%nat.
Proof.
  destruct (Set_twice_same no_closure sample_state 1%positive sample_euler
              zero zero zero 0 eq_refl eq_refl)
    as (s1 & s2 & H1 & H2 & Hheap & _ & Hcalls).
  exists s1, s2. split; [exact H1|]. split; [exact H2|]. split; [exact Hheap|].
  rewrite Hcalls, length_app.
  injection H1 as <-. reflexivity.
Defined.

Lemma three_setters_against_Set_witness :
  exists s3 s1,
    bind (SetX no_closure 1%positive zero)
         (fun _ => bind (SetY no_closure 1%positive one)
                     (fun _ => SetZ no_closure 1%positive zero)) sample_state
    = Ok 1%positive s3 /\
    Set_ no_closure 1%positive zero one zero 1 sample_state = Ok 1%positive s1 /\
    heap s3 = heap s1.
Proof.
  destruct (three_setters_against_Set no_closure sample_state 1%positive
              sample_euler zero one zero eq_refl eq_refl)
    as (s3 & s1 & H3 & H1 & Hheap & _).
  exists s3, s1. split; [exact H3|]. split; [exact H1|exact Hheap].
Defined.

Lemma Copy_fields_not_observer_witness :
  exists s',
    Copy no_closure 1%positive 2%positive sample_state_two = Ok 1%positive s' /\
    heap s' !! 1%positive
    = Some {| X := zero; Y := zero; Z := zero; Order := 5;
              OnChangeCallback := eulerNoop |} /\
    heap s' !! 2%positive = Some sample_default.
Proof.
  destruct (Copy_fields_not_observer no_closure sample_state_two 1%positive
              2%positive sample_euler sample_default eq_refl eq_refl eq_refl)
    as (s' & Hrun & Hheap & Hframe & _).
  exists s'. split; [exact Hrun|]. split; [exact Hheap|].
  rewrite Hframe by discriminate. reflexivity.
Defined.

Lemma nil_pointers_panic_witness :
  XYZ 7%positive sample_state = Panic /\
  Copy no_closure 1%positive 7%positive sample_state = Panic.
Proof.
  destruct (nil_pointers_panic no_closure asin_stand_in atan2_stand_in unit
              identity_matrix (fun t _ => t) sample_state 7%positive eq_refl)
    as (_ & HXYZ & _ & _ & _ & _ & _ & _ & HCopy & _).
  split; [exact HXYZ|apply HCopy].
Defined.
